(** * Block production core of the rollup node: payload validation,
      start/confirm of a payload build, the builder race and the payload
      insertion, as written in [op-node/rollup/derive/engine_update.go].

    The Go functions are embedded shallowly.  Pure functions are Rocq
    functions; a run-time panic of Go (index out of range, nil pointer
    dereference) is the [Panicked] outcome; the calls to the collaborators
    (execution engine, sequencer conductor, async gossiper, builder) thread a
    [World] that holds the gossip cache and the chronological log of calls. *)

From Stdlib Require Import String List Bool Arith ZArith Lia Sorted.
From Stdlib.Strings Require Import Byte.
Import ListNotations.
Local Open Scope string_scope.
Local Open Scope list_scope.

Set Implicit Arguments.

(** ** Outcome of a Go call: it returns, or the goroutine panics. *)

Inductive Outcome (A : Type) : Type :=
| Returned (a : A)
| Panicked.

Arguments Panicked {A}.

(** ** Data model (package [eth], as far as engine_update.go touches it) *)

(** [eth.Data]: an opaque transaction, a byte string. *)
Abbreviation Data := (list byte) (only parsing).

(** [common.Hash] and [eth.PayloadID] are fixed-size byte arrays that the code
    only copies and compares. *)
Abbreviation Hash := (list byte) (only parsing).
Abbreviation PayloadID := (list byte) (only parsing).

(** The zero value [eth.PayloadID{}] of the 8-byte array type. *)
Definition PayloadID_zero : PayloadID := repeat x00 8.

(** [eth.ExecutePayloadStatus] is a string type with named constants.  The code
    compares against three of them; every other value of the type is an
    [ExecutionOther]. *)
Inductive ExecutePayloadStatus : Type :=
| ExecutionValid
| ExecutionInvalid
| ExecutionInvalidBlockHash
| ExecutionOther (name : string).

(** [eth.ErrorCode] is an integer type with named constants.  The code
    switches on two of them; every other code is an [OtherCode]. *)
Inductive ErrorCode : Type :=
| InvalidForkchoiceState
| InvalidPayloadAttributes
| OtherCode (n : nat).

(** Go [error] values.  [errorString] is what [errors.New] builds, [wrapError]
    what [fmt.Errorf] builds (with the operand of its [%w] verb, if any),
    [InputError] is [eth.InputError] with its [Inner] and [Code] fields, and
    [foreignError] stands for any other error type a collaborator returns
    (transport errors and the like). *)
#[warnings="-register-all"] Inductive error_val : Type :=
| errorString (text : string)
| wrapError (format : string) (wrapped : option error_val)
| InputError (Inner : option error_val) (Code : ErrorCode)
| foreignError (tag : nat).

(** The Go interface type [error]: [None] is [nil]. *)
Definition error : Type := option error_val.

Definition errors_New (text : string) : error_val := errorString text.

(** [fmt.Errorf] never returns nil, also when the [%w] operand is nil. *)
Definition fmt_Errorf (format : string) (wrapped : error) : error_val :=
  wrapError format wrapped.

(** [errors.As(err, &inputErr)] with a target of type [eth.InputError]: walk
    the [Unwrap] chain until an [InputError] is met. *)
Fixpoint errors_As (err : error_val) : option (error * ErrorCode) :=
  match err with
  | InputError inner code => Some (inner, code)
  | wrapError _ (Some e) => errors_As e
  | wrapError _ None => None
  | errorString _ => None
  | foreignError _ => None
  end.

(** [inputErr.Unwrap()] returns the [Inner] field. *)
Definition InputError_Unwrap (ie : error * ErrorCode) : error := fst ie.
Definition InputError_Code (ie : error * ErrorCode) : ErrorCode := snd ie.

(** [eth.ExecutionPayload]: of the header fields only those the control flow
    reads are kept (the others are only logged). *)
Record ExecutionPayload : Type := {
  ep_ParentHash : Hash;
  ep_BlockNumber : nat;
  ep_BlockHash : Hash;
  ep_Transactions : list Data
}.

(** [eth.ExecutionPayloadEnvelope]; both fields are pointers in Go. *)
Record ExecutionPayloadEnvelope : Type := {
  env_ParentBeaconBlockRoot : option Hash;
  env_ExecutionPayload : option ExecutionPayload
}.

Record ForkchoiceState : Type := {
  fc_HeadBlockHash : Hash;
  fc_SafeBlockHash : Hash;
  fc_FinalizedBlockHash : Hash
}.

Record PayloadStatusV1 : Type := {
  ps_Status : ExecutePayloadStatus
}.

Record ForkchoiceUpdatedResult : Type := {
  fcr_PayloadStatus : PayloadStatusV1;
  fcr_PayloadID : option PayloadID
}.

Record PayloadInfo : Type := {
  pi_ID : PayloadID;
  pi_Timestamp : nat
}.

Record L2BlockRef : Type := {
  ref_Hash : Hash;
  ref_Number : nat
}.

(** [eth.PayloadAttributes] is passed through to the engine untouched. *)
Record PayloadAttributes : Type := {
  attr_Timestamp : nat;
  attr_Transactions : list Data
}.

(** ** Declarations imported from packages outside the sources

    [types.DepositTxType] (the transaction type byte of a deposit),
    [eth.ForkchoiceUpdateErr] and [eth.NewPayloadErr] (they turn an engine
    status into an [error]) are used by engine_update.go and declared
    elsewhere; they are parameters of the development. *)
Class Imported : Type := {
  DepositTxType : byte;
  ForkchoiceUpdateErr : PayloadStatusV1 -> error;
  NewPayloadErr : ExecutionPayload -> PayloadStatusV1 -> error
}.

(** ** Payload validator *)

(** [isDepositTx]: the pair (bool, error) of the Go function. *)
Definition isDepositTx `{Imported} (opaqueTx : Data) : bool * error :=
  match opaqueTx with
  | [] => (false, Some (errors_New "empty transaction"))
  | b :: _ => (Byte.eqb b DepositTxType, None)
  end.

(** The [for i, tx := range txns] loop of [lastDeposit], resumed at index [i]
    with the local variable [lastDeposit] holding [last]. *)
Fixpoint lastDeposit_from `{Imported} (i last : nat) (txns : list Data)
  : nat * error :=
  match txns with
  | [] => (last, None)
  | tx :: rest =>
      match isDepositTx tx with
      | (_, Some _) => (0, Some (fmt_Errorf "invalid transaction at idx %d" None))
      | (true, None) => lastDeposit_from (S i) i rest
      | (false, None) => (last, None)
      end
  end.

Definition lastDeposit `{Imported} (txns : list Data) : nat * error :=
  lastDeposit_from 0 0 txns.

(** The second loop of [sanityCheckPayload],
    [for i := lastDeposit + 1; i < len(txs); i++], resumed at index [i] with
    [rest] the transactions from index [i] on. *)
Fixpoint noDepositFrom `{Imported} (i : nat) (rest : list Data) : error :=
  match rest with
  | [] => None
  | tx :: rest' =>
      match isDepositTx tx with
      | (_, Some err) =>
          Some (fmt_Errorf "failed to decode transaction idx %d: %w" (Some err))
      | (true, None) =>
          Some (fmt_Errorf "deposit tx (%d) after other tx in l2 block with prev deposit at idx %d" None)
      | (false, None) => noDepositFrom (S i) rest'
      end
  end.

(** [sanityCheckPayload].  The argument is a pointer.  The second test indexes
    the first transaction at its byte 0 without looking at its length. *)
Definition sanityCheckPayload `{Imported} (payload : option ExecutionPayload)
  : Outcome error :=
  match payload with
  | None => Panicked
  | Some p =>
      match ep_Transactions p with
      | [] => Returned (Some (errors_New "no transactions in returned payload"))
      | tx0 :: _ =>
          match tx0 with
          | [] => Panicked
          | b0 :: _ =>
              if negb (Byte.eqb b0 DepositTxType) then
                Returned (Some (fmt_Errorf "first transaction was not deposit tx. Got %v" None))
              else
                match lastDeposit (ep_Transactions p) with
                | (_, Some err) =>
                    Returned (Some (fmt_Errorf "failed to find last deposit: %w" (Some err)))
                | (last, None) =>
                    Returned (noDepositFrom (S last) (skipn (S last) (ep_Transactions p)))
                end
          end
      end
  end.

(** ** Severity of a failed (or successful) insertion *)

Inductive BlockInsertionErrType : Type :=
| BlockInsertOK
| BlockInsertTemporaryErr
| BlockInsertPrestateErr
| BlockInsertPayloadErr.

(** ** Collaborators

    The execution engine, the sequencer conductor and the builder are Go
    interfaces.  Each call is logged, with its arguments and its answer, in
    the chronological [history] of the [World]; an implementation of an
    interface answers as a function of the history so far and of the
    arguments, so that the same call may be answered differently each time. *)

Definition BuilderAnswer : Type :=
  (option ExecutionPayloadEnvelope * option Z * error)%type.

Inductive Event : Type :=
| CallCommitUnsafePayload (envelope : ExecutionPayloadEnvelope) (res : error)
| CallGossip (envelope : ExecutionPayloadEnvelope)
| CallClear
| CallGet (res : option ExecutionPayloadEnvelope)
| CallNewPayload (payload : option ExecutionPayload) (parentBeaconBlockRoot : option Hash)
    (res : option PayloadStatusV1 * error)
| CallForkchoiceUpdate (fc : ForkchoiceState) (attrs : option PayloadAttributes)
    (res : option ForkchoiceUpdatedResult * error)
| CallGetPayload (payloadInfo : PayloadInfo)
    (res : option ExecutionPayloadEnvelope * error)
| CallBuilderEnabled (res : bool)
| CallBuilderGetPayload (l2head : L2BlockRef) (res : BuilderAnswer).

Definition History : Type := list Event.

Record ExecEngine : Type := {
  eng_ForkchoiceUpdate : History -> ForkchoiceState -> option PayloadAttributes ->
                         option ForkchoiceUpdatedResult * error;
  eng_NewPayload : History -> option ExecutionPayload -> option Hash ->
                   option PayloadStatusV1 * error;
  eng_GetPayload : History -> PayloadInfo ->
                   option ExecutionPayloadEnvelope * error
}.

Record SequencerConductor : Type := {
  cond_CommitUnsafePayload : History -> ExecutionPayloadEnvelope -> error
}.

(** [builder_late] resolves the [select] of the race once the builder has
    answered without error: [true] when [ctxTimeout.Done()] is the case taken
    (the 500 ms deadline or the parent context won), [false] when the result
    sent on the channel is received. *)
Record BuilderClient : Type := {
  builder_Enabled : History -> bool;
  builder_GetPayload : History -> L2BlockRef -> BuilderAnswer;
  builder_late : History -> bool
}.

(** Modelled from the spec: the async gossiper ([async.AsyncGossiper]) is an
    interface implemented outside the sources; the spec gives it as a
    single-slot, last-write-wins cache with the operations gossip(envelope),
    get() and clear().  The slot is the [gossip] field of the world. *)
Record World : Type := {
  gossip : option ExecutionPayloadEnvelope;
  history : History
}.

Definition log_call (ev : Event) (w : World) : World :=
  {| gossip := gossip w; history := history w ++ [ev] |}.

(** ** The monad of the stateful functions *)

Definition M (A : Type) : Type := World -> Outcome A * World.

Definition ret {A : Type} (a : A) : M A := fun w => (Returned a, w).

Definition panic {A : Type} : M A := fun w => (Panicked, w).

Definition bind {A B : Type} (c : M A) (k : A -> M B) : M B :=
  fun w =>
    match c w with
    | (Returned a, w') => k a w'
    | (Panicked, w') => (Panicked, w')
    end.

Declare Scope go_scope.
Delimit Scope go_scope with go.
Notation "x <- c ;; k" := (bind c (fun x => k))
  (at level 100, c at next level, right associativity) : go_scope.
Notation "' p <- c ;; k" := (bind c (fun x => let 'p := x in k))
  (at level 100, p pattern, c at next level, right associativity) : go_scope.
Notation "c ;;; k" := (bind c (fun _ => k))
  (at level 100, right associativity) : go_scope.
Local Open Scope go_scope.

(** *** Calls *)

Definition agossip_Gossip (envelope : ExecutionPayloadEnvelope) : M unit :=
  fun w => (Returned tt,
            {| gossip := Some envelope;
               history := history w ++ [CallGossip envelope] |}).

Definition agossip_Clear : M unit :=
  fun w => (Returned tt,
            {| gossip := None; history := history w ++ [CallClear] |}).

Definition agossip_Get : M (option ExecutionPayloadEnvelope) :=
  fun w => (Returned (gossip w), log_call (CallGet (gossip w)) w).

Definition CommitUnsafePayload (c : SequencerConductor)
    (envelope : ExecutionPayloadEnvelope) : M error :=
  fun w =>
    let res := cond_CommitUnsafePayload c (history w) envelope in
    (Returned res, log_call (CallCommitUnsafePayload envelope res) w).

Definition NewPayload (eng : ExecEngine) (payload : option ExecutionPayload)
    (root : option Hash) : M (option PayloadStatusV1 * error) :=
  fun w =>
    let res := eng_NewPayload eng (history w) payload root in
    (Returned res, log_call (CallNewPayload payload root res) w).

Definition ForkchoiceUpdate (eng : ExecEngine) (fc : ForkchoiceState)
    (attrs : option PayloadAttributes)
  : M (option ForkchoiceUpdatedResult * error) :=
  fun w =>
    let res := eng_ForkchoiceUpdate eng (history w) fc attrs in
    (Returned res, log_call (CallForkchoiceUpdate fc attrs res) w).

Definition GetPayload (eng : ExecEngine) (payloadInfo : PayloadInfo)
  : M (option ExecutionPayloadEnvelope * error) :=
  fun w =>
    let res := eng_GetPayload eng (history w) payloadInfo in
    (Returned res, log_call (CallGetPayload payloadInfo res) w).

Definition Enabled (builder : BuilderClient) : M bool :=
  fun w =>
    let res := builder_Enabled builder (history w) in
    (Returned res, log_call (CallBuilderEnabled res) w).

(** The goroutine [go func() { builder.GetPayload(ctxTimeout, l2head, log) ... }]:
    the request is issued when the goroutine is started. *)
Definition go_builder_GetPayload (builder : BuilderClient) (l2head : L2BlockRef)
  : M BuilderAnswer :=
  fun w =>
    let res := builder_GetPayload builder (history w) l2head in
    (Returned res, log_call (CallBuilderGetPayload l2head res) w).

(** The [select] over [ctxTimeout.Done()] and the result channel.  A failed
    builder call cancels the context and sends nothing, so that only the first
    case can fire; otherwise [builder_late] says which case fires.  [None] is
    the first case, [Some] the received result (envelope and profit). *)
Definition select_builder (builder : BuilderClient) (answer : BuilderAnswer)
  : M (option (option ExecutionPayloadEnvelope * option Z)) :=
  fun w =>
    match answer with
    | (_, _, Some _) => (Returned None, w)
    | (payload, profit, None) =>
        if builder_late builder (history w) then (Returned None, w)
        else (Returned (Some (payload, profit)), w)
    end.

(** ** [startPayload] *)

Definition startPayload `{Imported} (eng : ExecEngine) (fc : ForkchoiceState)
    (attrs : option PayloadAttributes)
  : M (PayloadID * BlockInsertionErrType * error) :=
  '(fcRes, err) <- ForkchoiceUpdate eng fc attrs ;;
  match err with
  | Some e =>
      match errors_As e with
      | Some inputErr =>
          match InputError_Code inputErr with
          | InvalidForkchoiceState =>
              ret (PayloadID_zero, BlockInsertPrestateErr,
                   Some (fmt_Errorf "pre-block-creation forkchoice update was inconsistent with engine, need reset to resolve: %w"
                           (InputError_Unwrap inputErr)))
          | InvalidPayloadAttributes =>
              ret (PayloadID_zero, BlockInsertPayloadErr,
                   Some (fmt_Errorf "payload attributes are not valid, cannot build block: %w"
                           (InputError_Unwrap inputErr)))
          | OtherCode _ =>
              ret (PayloadID_zero, BlockInsertPrestateErr,
                   Some (fmt_Errorf "unexpected error code in forkchoice-updated response: %w" err))
          end
      | None =>
          ret (PayloadID_zero, BlockInsertTemporaryErr,
               Some (fmt_Errorf "failed to create new block via forkchoice: %w" err))
      end
  | None =>
      match fcRes with
      | None => panic
      | Some res =>
          match ps_Status (fcr_PayloadStatus res) with
          | ExecutionInvalid | ExecutionInvalidBlockHash =>
              ret (PayloadID_zero, BlockInsertPayloadErr,
                   ForkchoiceUpdateErr (fcr_PayloadStatus res))
          | ExecutionValid =>
              match fcr_PayloadID res with
              | None =>
                  ret (PayloadID_zero, BlockInsertTemporaryErr,
                       Some (errors_New "nil id in forkchoice result when expecting a valid ID"))
              | Some id => ret (id, BlockInsertOK, None)
              end
          | ExecutionOther _ =>
              ret (PayloadID_zero, BlockInsertTemporaryErr,
                   ForkchoiceUpdateErr (fcr_PayloadStatus res))
          end
      end
  end.

(** ** [getPayloadWithBuilderPayload]: the race of the engine and the builder

    The result is the 4-tuple of the Go function: engine envelope, builder
    envelope, builder profit, error of the engine call.  In the second case of
    the [select] the code reads [result.envelope.ExecutionPayload.BlockHash]
    for the log line, then [envelope.ParentBeaconBlockRoot] of the engine
    envelope, and stores it into the builder envelope. *)
Definition getPayloadWithBuilderPayload (eng : ExecEngine)
    (payloadInfo : PayloadInfo) (l2head : L2BlockRef) (builder : BuilderClient)
  : M (option ExecutionPayloadEnvelope * option ExecutionPayloadEnvelope *
       option Z * error) :=
  enabled <- Enabled builder ;;
  if negb enabled then
    '(payload, err) <- GetPayload eng payloadInfo ;;
    ret (payload, None, None, err)
  else
    answer <- go_builder_GetPayload builder l2head ;;
    '(envelope, err) <- GetPayload eng payloadInfo ;;
    selected <- select_builder builder answer ;;
    match selected with
    | None => ret (envelope, None, None, err)
    | Some (result_envelope, result_profit) =>
        match result_envelope with
        | None => panic
        | Some benv =>
            match env_ExecutionPayload benv with
            | None => panic
            | Some _ =>
                match envelope with
                | None => panic
                | Some eenv =>
                    let benv' :=
                      {| env_ParentBeaconBlockRoot := env_ParentBeaconBlockRoot eenv;
                         env_ExecutionPayload := env_ExecutionPayload benv |} in
                    ret (envelope, Some benv', result_profit, err)
                end
            end
        end
    end.

(** ** [insertPayload] *)

Definition insertPayload `{Imported} (eng : ExecEngine) (fc : ForkchoiceState)
    (updateSafe : bool) (sequencerConductor : SequencerConductor)
    (envelope : option ExecutionPayloadEnvelope)
  : M (BlockInsertionErrType * error) :=
  match envelope with
  | None => panic
  | Some env =>
      let payload := env_ExecutionPayload env in
      match sanityCheckPayload payload with
      | Panicked => panic
      | Returned (Some err) => ret (BlockInsertPayloadErr, Some err)
      | Returned None =>
          cerr <- CommitUnsafePayload sequencerConductor env ;;
          match cerr with
          | Some _ =>
              ret (BlockInsertTemporaryErr,
                   Some (fmt_Errorf "failed to commit unsafe payload to conductor: %w" cerr))
          | None =>
              agossip_Gossip env ;;;
              '(status, err) <- NewPayload eng payload (env_ParentBeaconBlockRoot env) ;;
              match err with
              | Some _ =>
                  ret (BlockInsertTemporaryErr,
                       Some (fmt_Errorf "failed to insert execution payload: %w" err))
              | None =>
                  match status, payload with
                  | None, _ => panic
                  | _, None => panic
                  | Some st, Some p =>
                      match ps_Status st with
                      | ExecutionInvalid | ExecutionInvalidBlockHash =>
                          agossip_Clear ;;;
                          ret (BlockInsertPayloadErr, NewPayloadErr p st)
                      | ExecutionOther _ =>
                          ret (BlockInsertTemporaryErr, NewPayloadErr p st)
                      | ExecutionValid =>
                          let fc1 :=
                            {| fc_HeadBlockHash := ep_BlockHash p;
                               fc_SafeBlockHash := fc_SafeBlockHash fc;
                               fc_FinalizedBlockHash := fc_FinalizedBlockHash fc |} in
                          let fc2 :=
                            if updateSafe then
                              {| fc_HeadBlockHash := fc_HeadBlockHash fc1;
                                 fc_SafeBlockHash := ep_BlockHash p;
                                 fc_FinalizedBlockHash := fc_FinalizedBlockHash fc1 |}
                            else fc1 in
                          '(fcRes, err) <- ForkchoiceUpdate eng fc2 None ;;
                          match err with
                          | Some e =>
                              match errors_As e with
                              | Some inputErr =>
                                  match InputError_Code inputErr with
                                  | InvalidForkchoiceState =>
                                      agossip_Clear ;;;
                                      ret (BlockInsertPayloadErr,
                                           Some (fmt_Errorf "post-block-creation forkchoice update was inconsistent with engine, need reset to resolve: %w"
                                                   (InputError_Unwrap inputErr)))
                                  | InvalidPayloadAttributes | OtherCode _ =>
                                      agossip_Clear ;;;
                                      ret (BlockInsertPrestateErr,
                                           Some (fmt_Errorf "unexpected error code in forkchoice-updated response: %w" err))
                                  end
                              | None =>
                                  ret (BlockInsertTemporaryErr,
                                       Some (fmt_Errorf "failed to make the new L2 block canonical via forkchoice: %w" err))
                              end
                          | None =>
                              agossip_Clear ;;;
                              match fcRes with
                              | None => panic
                              | Some res =>
                                  match ps_Status (fcr_PayloadStatus res) with
                                  | ExecutionValid => ret (BlockInsertOK, None)
                                  | _ =>
                                      ret (BlockInsertPayloadErr,
                                           ForkchoiceUpdateErr (fcr_PayloadStatus res))
                                  end
                              end
                          end
                      end
                  end
              end
          end
      end
  end.

(** ** [confirmPayload] *)

Definition confirmPayload `{Imported} (eng : ExecEngine) (fc : ForkchoiceState)
    (payloadInfo : PayloadInfo) (updateSafe : bool)
    (sequencerConductor : SequencerConductor) (builderClient : BuilderClient)
    (l2head : L2BlockRef)
  : M (option ExecutionPayloadEnvelope * BlockInsertionErrType * error) :=
  cached <- agossip_Get ;;
  '(engineEnvelope, builderEnvelope, err) <-
    match cached with
    | Some c =>
        match env_ExecutionPayload c with
        | None => panic
        | Some _ => ret (Some c, None, None)
        end
    | None =>
        '(e, b, _, err) <- getPayloadWithBuilderPayload eng payloadInfo l2head builderClient ;;
        ret (e, b, err)
    end ;;
  match err with
  | Some _ =>
      ret (None, BlockInsertTemporaryErr,
           Some (fmt_Errorf "failed to get execution payload: %w" err))
  | None =>
      let fallback :=
        '(errType, err) <- insertPayload eng fc updateSafe sequencerConductor engineEnvelope ;;
        ret (engineEnvelope, errType, err) in
      match builderEnvelope with
      | Some _ =>
          '(errTyp, err) <- insertPayload eng fc updateSafe sequencerConductor builderEnvelope ;;
          match err with
          | None => ret (builderEnvelope, errTyp, err)
          | Some _ => fallback
          end
      | None => fallback
      end
  end.

(** ** Vocabulary of the properties *)

(** A transaction is privileged (a deposit) when its leading type byte is
    [DepositTxType]. *)
Definition privileged `{Imported} (tx : Data) : Prop :=
  exists rest, tx = DepositTxType :: rest.

(** The privileged transactions form a contiguous, possibly empty prefix: from
    some index on no transaction is privileged, and before it all are. *)
Definition deposits_form_prefix `{Imported} (txs : list Data) : Prop :=
  exists k, Forall privileged (firstn k txs) /\
            Forall (fun tx => ~ privileged tx) (skipn k txs).

Definition first_is_deposit `{Imported} (txs : list Data) : Prop :=
  exists tx rest, txs = tx :: rest /\ privileged tx.

(** The validator accepts a payload when it returns the nil error. *)
Definition accepts `{Imported} (p : ExecutionPayload) : Prop :=
  sanityCheckPayload (Some p) = Returned None.

(** A payload with the given transactions. *)
Definition payload_of (txs : list Data) : ExecutionPayload :=
  {| ep_ParentHash := []; ep_BlockNumber := 0; ep_BlockHash := [];
     ep_Transactions := txs |}.

(** ** Concrete collaborators, for running the functions on examples *)

(** Imported declarations: 0x7E as deposit type, and status-to-error helpers
    that return nil on the valid status only. *)
Definition imports_7e : Imported :=
  {| DepositTxType := x7e;
     ForkchoiceUpdateErr := fun st =>
       match ps_Status st with
       | ExecutionValid => None
       | _ => Some (errorString "forkchoice update failed")
       end;
     NewPayloadErr := fun _ st =>
       match ps_Status st with
       | ExecutionValid => None
       | _ => Some (errorString "new payload failed")
       end |}.

(** Answers that do not depend on the history or on the arguments. *)
Definition fixed_engine
    (fcu : option ForkchoiceUpdatedResult * error)
    (np : option PayloadStatusV1 * error)
    (gp : option ExecutionPayloadEnvelope * error) : ExecEngine :=
  {| eng_ForkchoiceUpdate := fun _ _ _ => fcu;
     eng_NewPayload := fun _ _ _ => np;
     eng_GetPayload := fun _ _ => gp |}.

Definition fixed_conductor (res : error) : SequencerConductor :=
  {| cond_CommitUnsafePayload := fun _ _ => res |}.

Definition fixed_builder (enabled : bool) (answer : BuilderAnswer) (late : bool)
  : BuilderClient :=
  {| builder_Enabled := fun _ => enabled;
     builder_GetPayload := fun _ _ => answer;
     builder_late := fun _ => late |}.

Definition status_of (s : ExecutePayloadStatus) : PayloadStatusV1 :=
  {| ps_Status := s |}.

Definition fcu_result (s : ExecutePayloadStatus) : ForkchoiceUpdatedResult :=
  {| fcr_PayloadStatus := status_of s; fcr_PayloadID := Some PayloadID_zero |}.

Definition deposit_tx : Data := [x7e; x01].
Definition user_tx : Data := [x02; x01].

Definition engine_block : ExecutionPayload :=
  {| ep_ParentHash := [x00]; ep_BlockNumber := 1; ep_BlockHash := [x0e];
     ep_Transactions := [deposit_tx; user_tx] |}.

Definition builder_block : ExecutionPayload :=
  {| ep_ParentHash := [x00]; ep_BlockNumber := 1; ep_BlockHash := [x0b];
     ep_Transactions := [deposit_tx; user_tx; user_tx] |}.

Definition engine_envelope : ExecutionPayloadEnvelope :=
  {| env_ParentBeaconBlockRoot := Some [xbe];
     env_ExecutionPayload := Some engine_block |}.

(** What [versionedExecutionPayloadToExecutionPayloadEnvelope] of the builder
    client produces: a payload and a nil [ParentBeaconBlockRoot]. *)
Definition builder_envelope : ExecutionPayloadEnvelope :=
  {| env_ParentBeaconBlockRoot := None;
     env_ExecutionPayload := Some builder_block |}.

Definition fc0 : ForkchoiceState :=
  {| fc_HeadBlockHash := [x00]; fc_SafeBlockHash := [x00];
     fc_FinalizedBlockHash := [x00] |}.

Definition info0 : PayloadInfo := {| pi_ID := PayloadID_zero; pi_Timestamp := 0 |}.

Definition head0 : L2BlockRef := {| ref_Hash := [x00]; ref_Number := 0 |}.

Definition fresh_world : World := {| gossip := None; history := [] |}.

(** An engine that finds the builder's block invalid and every other block
    valid, and accepts every forkchoice update. *)
Definition picky_engine : ExecEngine :=
  {| eng_ForkchoiceUpdate := fun _ _ _ => (Some (fcu_result ExecutionValid), None);
     eng_NewPayload := fun _ payload _ =>
       match payload with
       | Some p =>
           match ep_BlockHash p with
           | [x0b] => (Some (status_of ExecutionInvalid), None)
           | _ => (Some (status_of ExecutionValid), None)
           end
       | None => (None, Some (errorString "nil payload"))
       end;
     eng_GetPayload := fun _ _ => (Some engine_envelope, None) |}.

(** Kinds of calls in a history. *)
Definition engine_call (ev : Event) : Prop :=
  match ev with
  | CallNewPayload _ _ _ | CallForkchoiceUpdate _ _ _ | CallGetPayload _ _ => True
  | _ => False
  end.

Definition gossip_call (ev : Event) : Prop :=
  match ev with
  | CallGossip _ => True
  | _ => False
  end.

(** ** Concrete runs *)

Definition valid_engine : ExecEngine :=
  fixed_engine (Some (fcu_result ExecutionValid), None)
               (Some (status_of ExecutionValid), None)
               (Some engine_envelope, None).

(** The engine finds every block invalid. *)
Definition rejecting_engine : ExecEngine :=
  fixed_engine (Some (fcu_result ExecutionValid), None)
               (Some (status_of ExecutionInvalid), None)
               (Some engine_envelope, None).

(** The engine answers every forkchoice update with the given error. *)
Definition forkchoice_error_engine (e : error_val) : ExecEngine :=
  fixed_engine (None, Some e)
               (Some (status_of ExecutionValid), None)
               (Some engine_envelope, None).

Definition inconsistent_forkchoice : error_val :=
  fmt_Errorf "rpc: %w" (Some (InputError None InvalidForkchoiceState)).

Definition unknown_code : error_val := InputError None (OtherCode 7).

(** The engine has lost the payload: nil envelope and an error. *)
Definition forgetful_engine : ExecEngine :=
  fixed_engine (Some (fcu_result ExecutionValid), None)
               (Some (status_of ExecutionValid), None)
               (None, Some (foreignError 2)).

(** An enabled builder that answers in time with [builder_envelope]. *)
Definition prompt_builder : BuilderClient :=
  fixed_builder true (Some builder_envelope, Some 7%Z, None) false.

(** [builder_envelope] once the race has copied the engine envelope's root
    into it. *)
Definition builder_envelope_filled : ExecutionPayloadEnvelope :=
  {| env_ParentBeaconBlockRoot := env_ParentBeaconBlockRoot engine_envelope;
     env_ExecutionPayload := Some builder_block |}.

Definition run_insert (eng : ExecEngine) (conductor : SequencerConductor)
  : Outcome (BlockInsertionErrType * error) * World :=
  @insertPayload imports_7e eng fc0 false conductor (Some engine_envelope)
    fresh_world.

Definition run_start (eng : ExecEngine)
  : Outcome (PayloadID * BlockInsertionErrType * error) * World :=
  @startPayload imports_7e eng fc0 None fresh_world.

Definition run_race (eng : ExecEngine) (builder : BuilderClient) (w : World) :=
  getPayloadWithBuilderPayload eng info0 head0 builder w.

Definition run_confirm (eng : ExecEngine) (builder : BuilderClient) :=
  @confirmPayload imports_7e eng fc0 info0 false (fixed_conductor None) builder
    head0 fresh_world.

(** ** Vocabulary of the call order *)

(** The rank of a call in the insertion protocol: commit, gossip, new payload,
    forkchoice update, clear.  Any other call has rank 5. *)
Definition call_rank (ev : Event) : nat :=
  match ev with
  | CallCommitUnsafePayload _ _ => 0
  | CallGossip _ => 1
  | CallNewPayload _ _ _ => 2
  | CallForkchoiceUpdate _ _ _ => 3
  | CallClear => 4
  | _ => 5
  end.

(** The calls by which [confirmPayload] retrieves a payload. *)
Definition retrieval_call (ev : Event) : Prop :=
  match ev with
  | CallGetPayload _ _ | CallBuilderEnabled _ | CallBuilderGetPayload _ _ => True
  | _ => False
  end.

(** The forkchoice state that [insertPayload] hands to the engine. *)
Definition advanced_forkchoice (fc : ForkchoiceState) (updateSafe : bool)
    (p : ExecutionPayload) : ForkchoiceState :=
  {| fc_HeadBlockHash := ep_BlockHash p;
     fc_SafeBlockHash := if updateSafe then ep_BlockHash p else fc_SafeBlockHash fc;
     fc_FinalizedBlockHash := fc_FinalizedBlockHash fc |}.

(** ** The builder API client (package [sources])

    The request types come from go-builder-client and go-eth2-client, outside
    the sources; they are given by the fields that the client reads, a pointer
    field being an option.  Of an execution payload the fields kept are those
    of [ExecutionPayload], the withdrawals and the base fee (the function
    dereferences both). *)

(** [consensusspec.DataVersion]: the client compares against
    [DataVersionDeneb] only. *)
Inductive DataVersion : Type :=
| DataVersionDeneb
| DataVersionOther (n : nat).

Record Withdrawal : Type := {
  wd_Index : N;
  wd_ValidatorIndex : N;
  wd_Address : list byte;
  wd_Amount : N
}.

Record DenebExecutionPayload : Type := {
  dp_ParentHash : Hash;
  dp_BlockNumber : nat;
  dp_BlockHash : Hash;
  dp_Transactions : list Data;
  dp_Withdrawals : list (option Withdrawal);
  dp_BaseFeePerGas : option N
}.

Record BidTrace : Type := {
  bt_Value : option Z
}.

Record DenebSubmitBlockRequest : Type := {
  dr_Message : option BidTrace;
  dr_ExecutionPayload : option DenebExecutionPayload
}.

Record VersionedSubmitBlockRequest : Type := {
  vr_Version : DataVersion;
  vr_Deneb : option DenebSubmitBlockRequest
}.

Definition PathGetPayload : string := "/eth/v1/builder/payload".

Definition errHTTPErrorResponse : error_val := errors_New "HTTP error response".

(** The loop that copies the withdrawals: each element is a pointer that the
    loop dereferences. *)
Fixpoint convert_withdrawals (ws : list (option Withdrawal))
  : Outcome (list Withdrawal) :=
  match ws with
  | [] => Returned []
  | None :: _ => Panicked
  | Some wd :: rest =>
      match convert_withdrawals rest with
      | Returned out =>
          Returned ({| wd_Index := wd_Index wd;
                       wd_ValidatorIndex := wd_ValidatorIndex wd;
                       wd_Address := wd_Address wd;
                       wd_Amount := wd_Amount wd |} :: out)
      | Panicked => Panicked
      end
  end.

(** [versionedExecutionPayloadToExecutionPayloadEnvelope]. *)
Definition versionedExecutionPayloadToExecutionPayloadEnvelope
    (resp : option VersionedSubmitBlockRequest)
  : Outcome (option ExecutionPayloadEnvelope * error) :=
  match resp with
  | None => Panicked
  | Some r =>
      match vr_Version r with
      | DataVersionOther _ =>
          Returned (None, Some (fmt_Errorf "unsupported data version %v" None))
      | DataVersionDeneb =>
          match vr_Deneb r with
          | None => Panicked
          | Some deneb =>
              match dr_ExecutionPayload deneb with
              | None => Panicked
              | Some payload =>
                  let txs := map (fun tx : Data => tx) (dp_Transactions payload) in
                  match convert_withdrawals (dp_Withdrawals payload) with
                  | Panicked => Panicked
                  | Returned _ =>
                      match dp_BaseFeePerGas payload with
                      | None => Panicked
                      | Some _ =>
                          Returned
                            (Some {| env_ParentBeaconBlockRoot := None;
                                     env_ExecutionPayload :=
                                       Some {| ep_ParentHash := dp_ParentHash payload;
                                               ep_BlockNumber := dp_BlockNumber payload;
                                               ep_BlockHash := dp_BlockHash payload;
                                               ep_Transactions := txs |} |},
                             None)
                      end
                  end
              end
          end
      end
  end.

(** An HTTP response: its status code and what [io.ReadAll] makes of its
    body. *)
Record HTTPResponse : Type := {
  resp_StatusCode : nat;
  resp_Body : list byte * error
}.

(** [BuilderAPIClient]: its HTTP client answers a GET of the URL built from
    the path, the slot and the parent hash.  [json.Unmarshal] into a
    [VersionedSubmitBlockRequest] is a parameter of the client as well. *)
Record BuilderAPIClient : Type := {
  api_Get : string -> N -> Hash -> option HTTPResponse * error;
  api_Unmarshal : list byte -> VersionedSubmitBlockRequest * error
}.

(** The method [GetPayload] of [BuilderAPIClient].  The slot is the head's number plus one,
    on 64 bits. *)
Definition BuilderAPIClient_GetPayload (s : BuilderAPIClient) (ref : L2BlockRef)
  : Outcome BuilderAnswer :=
  let slot := ((N.of_nat (ref_Number ref) + 1) mod 2 ^ 64)%N in
  let parentHash := ref_Hash ref in
  match api_Get s PathGetPayload slot parentHash with
  | (_, Some err) => Returned (None, None, Some err)
  | (None, None) => Panicked
  | (Some resp, None) =>
      match resp_Body resp with
      | (_, Some err) => Returned (None, None, Some err)
      | (bodyBytes, None) =>
          if negb (Nat.eqb (resp_StatusCode resp) 200) then
            Returned (None, None, Some errHTTPErrorResponse)
          else
            match api_Unmarshal s bodyBytes with
            | (_, Some err) => Returned (None, None, Some err)
            | (responsePayload, None) =>
                match vr_Version responsePayload with
                | DataVersionOther _ =>
                    Returned (None, None,
                              Some (fmt_Errorf "unsupported data version %v" None))
                | DataVersionDeneb =>
                    match vr_Deneb responsePayload with
                    | None => Panicked
                    | Some deneb =>
                        match dr_Message deneb with
                        | None => Panicked
                        | Some message =>
                            let profit := bt_Value message in
                            match versionedExecutionPayloadToExecutionPayloadEnvelope
                                    (Some responsePayload) with
                            | Panicked => Panicked
                            | Returned (_, Some err) => Returned (None, None, Some err)
                            | Returned (envelope, None) =>
                                Returned (envelope, profit, None)
                            end
                        end
                    end
                end
            end
      end
  end.

(** A well-formed Deneb request, for the examples. *)
Definition deneb_request : VersionedSubmitBlockRequest :=
  {| vr_Version := DataVersionDeneb;
     vr_Deneb :=
       Some {| dr_Message := Some {| bt_Value := Some 7%Z |};
               dr_ExecutionPayload :=
                 Some {| dp_ParentHash := [x00]; dp_BlockNumber := 1;
                         dp_BlockHash := [x0b];
                         dp_Transactions := [deposit_tx; user_tx; user_tx];
                         dp_Withdrawals := [];
                         dp_BaseFeePerGas := Some 1%N |} |} |}.

(** A builder API that answers every request with status [code] and a body
    that decodes to [deneb_request]. *)
Definition answering_api (code : nat) : BuilderAPIClient :=
  {| api_Get := fun _ _ _ =>
       (Some {| resp_StatusCode := code; resp_Body := ([x7b; x7d], None) |}, None);
     api_Unmarshal := fun _ => (deneb_request, None) |}.

(** ** The status-to-error helpers of package [eth] *)

(** The name of a status, as the engine API writes it. *)
Definition status_name (s : ExecutePayloadStatus) : string :=
  match s with
  | ExecutionValid => "VALID"
  | ExecutionInvalid => "INVALID"
  | ExecutionInvalidBlockHash => "INVALID_BLOCK_HASH"
  | ExecutionOther name => name
  end.

(** Modelled from the spec: [eth.ForkchoiceUpdateErr] is a function of
    package op-service/eth, which is not among the sources.  The spec has
    every operation return its severity alongside a human-readable cause, and
    has a status that is not VALID end in PayloadErr or TemporaryErr, VALID
    being the acceptance.  The helper makes of a status that is not VALID an
    error that names the status; a VALID status gives nil. *)
Definition spec_ForkchoiceUpdateErr (payloadStatus : PayloadStatusV1) : error :=
  match ps_Status payloadStatus with
  | ExecutionValid => None
  | s => Some (errorString
                 (String.append "forkchoice update: status " (status_name s)))
  end.

(** Modelled from the spec: [eth.NewPayloadErr] is a function of package
    op-service/eth, which is not among the sources.  As for
    [spec_ForkchoiceUpdateErr], the spec's human-readable cause of a status
    that is not VALID; a VALID status gives nil. *)
Definition spec_NewPayloadErr (payload : ExecutionPayload)
    (payloadStatus : PayloadStatusV1) : error :=
  match ps_Status payloadStatus with
  | ExecutionValid => None
  | s => Some (errorString
                 (String.append "new payload: status " (status_name s)))
  end.

(** The imported declarations with the two helpers as the spec has them; the
    deposit type byte stays a parameter. *)
Definition spec_imports (deposit : byte) : Imported :=
  {| DepositTxType := deposit;
     ForkchoiceUpdateErr := spec_ForkchoiceUpdateErr;
     NewPayloadErr := spec_NewPayloadErr |}.

(** * Properties of the payload validator *)

Section Validator.
Context `{Imported}.

Lemma privileged_dec (tx : Data) : {privileged tx} + {~ privileged tx}.
Proof.
  destruct tx as [|b rest].
  - right. intros [r Hr]. discriminate.
  - destruct (byte_eq_dec b DepositTxType) as [->|Hne].
    + left. exists rest. reflexivity.
    + right. intros [r Hr]. injection Hr as Hb _. contradiction.
Qed.

Lemma isDepositTx_privileged (tx : Data) :
  privileged tx -> isDepositTx tx = (true, None).
Proof.
  intros [rest ->]. unfold isDepositTx.
  rewrite (byte_dec_lb (eq_refl DepositTxType)). reflexivity.
Qed.

Lemma isDepositTx_other (tx : Data) :
  tx <> [] -> ~ privileged tx -> isDepositTx tx = (false, None).
Proof.
  intros Hne Hnp. destruct tx as [|b rest]; [contradiction|].
  unfold isDepositTx. destruct (Byte.eqb b DepositTxType) eqn:E; [|reflexivity].
  exfalso. apply Hnp. exists rest. apply byte_dec_bl in E. now subst.
Qed.

Lemma isDepositTx_cases (tx : Data) :
  (tx = [] /\ exists e, isDepositTx tx = (false, Some e)) \/
  (privileged tx /\ isDepositTx tx = (true, None)) \/
  (tx <> [] /\ ~ privileged tx /\ isDepositTx tx = (false, None)).
Proof.
  destruct tx as [|b rest].
  - left. split; [reflexivity|]. eexists. reflexivity.
  - right. destruct (privileged_dec (b :: rest)) as [Hp|Hnp].
    + left. split; [assumption|]. now apply isDepositTx_privileged.
    + right. split; [discriminate|]. split; [assumption|].
      apply isDepositTx_other; [discriminate|assumption].
Qed.

(** The first loop stops at the end of the leading run of deposits. *)
Lemma lastDeposit_from_run (ds rest : list Data) :
  Forall privileged ds ->
  (rest = [] \/ exists tx r, rest = tx :: r /\ tx <> [] /\ ~ privileged tx) ->
  forall i last,
    lastDeposit_from i last (ds ++ rest) =
    (match ds with [] => last | _ :: _ => i + length ds - 1 end, None).
Proof.
  intros Hds Hrest. induction Hds as [|d ds Hd Hds IH]; intros i last.
  - simpl. destruct Hrest as [->|(tx & r & -> & Hne & Hnp)]; [reflexivity|].
    simpl. now rewrite (isDepositTx_other Hne Hnp).
  - simpl. rewrite (isDepositTx_privileged Hd). rewrite IH.
    f_equal. destruct ds; simpl; lia.
Qed.

(** What the first loop has seen when it returns without error. *)
Lemma lastDeposit_from_inv (txs : list Data) :
  forall i last n,
    lastDeposit_from i last txs = (n, None) ->
    exists ds rest,
      txs = ds ++ rest /\ Forall privileged ds /\
      (rest = [] \/ exists tx r, rest = tx :: r /\ tx <> [] /\ ~ privileged tx) /\
      n = match ds with [] => last | _ :: _ => i + length ds - 1 end.
Proof.
  induction txs as [|tx txs IH]; intros i last n Hrun.
  - simpl in Hrun. injection Hrun as <-. exists [], []. repeat split; auto.
  - simpl in Hrun.
    destruct (isDepositTx_cases tx) as [(-> & e & He)|[(Hp & He)|(Hne & Hnp & He)]];
      rewrite He in Hrun.
    + discriminate.
    + apply IH in Hrun as (ds & rest & -> & Hds & Hrest & ->).
      exists (tx :: ds), rest. repeat split; auto.
      destruct ds; simpl; lia.
    + injection Hrun as <-. exists [], (tx :: txs). repeat split; auto.
      right. exists tx, txs. auto.
Qed.

(** The second loop returns nil exactly on a run of decodable transactions
    none of which is a deposit. *)
Lemma noDepositFrom_nil_iff (rest : list Data) :
  forall i,
    noDepositFrom i rest = None <->
    Forall (fun tx => tx <> [] /\ ~ privileged tx) rest.
Proof.
  induction rest as [|tx rest IH]; intros i; simpl.
  - split; auto.
  - destruct (isDepositTx_cases tx) as [(-> & e & He)|[(Hp & He)|(Hne & Hnp & He)]];
      rewrite He.
    + split; [discriminate|]. intros HF. inversion HF as [|? ? [Hx _] _]. now contradiction Hx.
    + split; [discriminate|]. intros HF. inversion HF as [|? ? [_ Hx] _]. contradiction.
    + rewrite IH. split.
      * intros HF. constructor; auto.
      * intros HF. now inversion HF.
Qed.

Lemma skipn_length_app (A : Type) (l1 l2 : list A) :
  skipn (length l1) (l1 ++ l2) = l2.
Proof. induction l1; simpl; auto. Qed.

Lemma Forall_and_split (A : Type) (P Q : A -> Prop) (l : list A) :
  Forall (fun x => P x /\ Q x) l <-> Forall P l /\ Forall Q l.
Proof.
  induction l as [|a l IH]; simpl.
  - split; auto.
  - split.
    + intros HF. inversion HF as [|? ? [Hp Hq] Hl]; subst.
      apply IH in Hl as [? ?]. split; constructor; auto.
    + intros [Hp Hq]. inversion Hp; inversion Hq; subst.
      constructor; [auto|]. apply IH. auto.
Qed.

(** The validator's verdict on a payload whose first transaction is a deposit:
    the leading run of deposits [ds] is not empty, and what follows decodes
    and holds no deposit. *)
Lemma sanityCheckPayload_accepts_run (p : ExecutionPayload) :
  accepts p <->
  exists d ds rest,
    ep_Transactions p = (d :: ds) ++ rest /\
    Forall privileged (d :: ds) /\
    Forall (fun tx => tx <> [] /\ ~ privileged tx) rest.
Proof.
  unfold accepts, sanityCheckPayload.
  destruct (ep_Transactions p) as [|tx0 txs] eqn:Etxs.
  - split; [discriminate|]. intros (d & ds & rest & Hx & _). discriminate.
  - destruct tx0 as [|b0 r0].
    + split; [discriminate|]. intros (d & ds & rest & Hx & Hp & _).
      injection Hx as <- _. inversion Hp as [|? ? [? Hd] _]. discriminate.
    + destruct (Byte.eqb b0 DepositTxType) eqn:Eb; simpl negb; cbv iota.
      * apply byte_dec_bl in Eb. subst b0.
        assert (Hp0 : privileged (DepositTxType :: r0)) by (now exists r0).
        split.
        -- match goal with
           | |- context [lastDeposit ?l] =>
               destruct (lastDeposit l) as [last [e|]] eqn:El
           end; cbv beta iota; [discriminate|].
           intros Hret.
           match type of Hret with
           | Returned ?x = _ => assert (Hnd : x = None) by congruence
           end.
           clear Hret.
           apply lastDeposit_from_inv in El as (ds & rest & Hsplit & Hds & Hrest & ->).
           destruct ds as [|d ds].
           ++ exfalso. destruct Hrest as [->|(tx & r & -> & _ & Hnp)].
              ** discriminate.
              ** simpl in Hsplit. injection Hsplit as <- _. contradiction.
           ++ replace (S (0 + length (d :: ds) - 1)) with (length (d :: ds)) in Hnd
                by (simpl; lia).
              rewrite Hsplit, skipn_length_app in Hnd.
              apply noDepositFrom_nil_iff in Hnd.
              exists d, ds, rest. auto.
        -- intros (d & ds & rest & Hsplit & Hds & Hrest).
           unfold lastDeposit. rewrite Hsplit.
           rewrite (@lastDeposit_from_run (d :: ds) rest Hds).
           ++ replace (S (0 + length (d :: ds) - 1)) with (length (d :: ds))
                by (simpl; lia).
              rewrite skipn_length_app. f_equal.
              now apply noDepositFrom_nil_iff.
           ++ destruct rest as [|tx r]; [now left|right].
              inversion Hrest as [|? ? [Hne Hnp] _]; subst. exists tx, r. auto.
      * split; [discriminate|]. intros (d & ds & rest & Hx & Hp & _).
        injection Hx as <- _. inversion Hp as [|? ? [? Hd] _]; subst.
        injection Hd as ->. rewrite (byte_dec_lb (eq_refl DepositTxType)) in Eb.
        discriminate.
Qed.

Lemma firstn_length_app (A : Type) (l1 l2 : list A) :
  firstn (length l1) (l1 ++ l2) = l1.
Proof. induction l1; simpl; [now destruct l2|now f_equal]. Qed.

(** C1, as the code has it: the validator accepts exactly the payloads in
    which the first transaction is a deposit, no transaction is the
    zero-length byte string, and the deposits form a contiguous prefix with no
    deposit after a non-deposit (the prefix is therefore not empty); a payload
    without transactions is rejected with an error. *)
Theorem sanityCheckPayload_accepts_iff (p : ExecutionPayload) :
  (accepts p <->
   first_is_deposit (ep_Transactions p) /\
   Forall (fun tx => tx <> []) (ep_Transactions p) /\
   deposits_form_prefix (ep_Transactions p)) /\
  sanityCheckPayload
    (Some {| ep_ParentHash := ep_ParentHash p; ep_BlockNumber := ep_BlockNumber p;
             ep_BlockHash := ep_BlockHash p; ep_Transactions := [] |}) =
  Returned (Some (errors_New "no transactions in returned payload")).
Proof.
  split; [|reflexivity].
  rewrite sanityCheckPayload_accepts_run. split.
  - intros (d & ds & rest & Htxs & Hds & Hrest).
    apply Forall_and_split in Hrest as [Hne Hnp].
    rewrite Htxs. split; [|split].
    + exists d, (ds ++ rest). split; [reflexivity|]. now inversion Hds.
    + apply Forall_app. split; [|assumption].
      eapply Forall_impl; [|exact Hds]. intros tx [r ->]. discriminate.
    + exists (length (d :: ds)).
      rewrite firstn_length_app, skipn_length_app. auto.
  - intros ((tx & r & Htxs & Hp) & Hne & (k & Hpre & Hpost)).
    destruct k as [|k].
    + exfalso. rewrite Htxs in Hpost. simpl in Hpost.
      inversion Hpost; subst. contradiction.
    + rewrite <- (firstn_skipn (S k) (ep_Transactions p)) in Hne.
      apply Forall_app in Hne as [_ Hne].
      exists tx, (firstn k r), (skipn (S k) (ep_Transactions p)).
      split; [|split].
      * rewrite <- (firstn_skipn (S k) (ep_Transactions p)) at 1.
        rewrite Htxs. reflexivity.
      * rewrite Htxs in Hpre. exact Hpre.
      * apply Forall_and_split. auto.
Qed.

(** C9: on a payload whose first transaction is the zero-length byte string
    the validator does not return: reading byte 0 of that transaction is out
    of range. *)
Theorem sanityCheckPayload_empty_first_tx_panics
    (ph : Hash) (n : nat) (bh : Hash) (rest : list Data) :
  sanityCheckPayload
    (Some {| ep_ParentHash := ph; ep_BlockNumber := n; ep_BlockHash := bh;
             ep_Transactions := [] :: rest |}) = Panicked.
Proof. reflexivity. Qed.

End Validator.

(** C1 as the spec words it fails on a payload whose only transaction is not
    a deposit: its deposits form the empty prefix, and the validator rejects
    it because the first transaction is not a deposit. *)
Lemma sanityCheckPayload_rejects_empty_deposit_prefix :
  ~ (@accepts imports_7e (payload_of [user_tx]) <->
     [user_tx] <> [] /\ @deposits_form_prefix imports_7e [user_tx]).
Proof.
  intros [_ Hback].
  assert (Hacc : @accepts imports_7e (payload_of [user_tx])).
  { apply Hback. split; [discriminate|].
    exists 0. split; [constructor|].
    constructor; [|constructor]. intros [r Hr]. discriminate. }
  unfold accepts in Hacc. vm_compute in Hacc. discriminate.
Qed.

(** * Properties of the insertion path *)

Lemma no_new_events (A : Type) (h evs : list A) : h = h ++ evs -> evs = [].
Proof.
  intros Heq. rewrite <- (app_nil_r h) in Heq at 1.
  apply app_inv_head in Heq. now symmetry.
Qed.

(** Unfold the monad and the calls, so that a run becomes a tree of matches
    on the collaborators' answers. *)
Ltac unfold_calls :=
  cbv beta iota zeta delta
    [bind ret panic CommitUnsafePayload agossip_Gossip agossip_Clear agossip_Get
     NewPayload ForkchoiceUpdate GetPayload Enabled go_builder_GetPayload
     select_builder log_call InputError_Code InputError_Unwrap].

(** One goal per path through the function: case analysis on the innermost
    scrutinee, until no match is left. *)
Ltac split_paths :=
  repeat match goal with
    | |- context [match ?x with _ => _ end] =>
        lazymatch x with
        | context [match _ with _ => _ end] => fail
        | _ => destruct x eqn:?
        end
    end.

(** From the equation of a run and the equation of its history, the list of
    the calls made on this path. *)
Ltac new_events Hrun Hevs :=
  injection Hrun as <- <-; cbn [history gossip] in Hevs |- *;
  rewrite <- ?app_assoc in Hevs;
  first [apply app_inv_head in Hevs | apply no_new_events in Hevs];
  subst.

Ltac in_cases :=
  repeat match goal with
    | Hin : In _ (_ :: _) |- _ => destruct Hin as [Hin|Hin]
    | Hin : In _ [] |- _ => destruct Hin
    | Hin : In _ (_ ++ _) |- _ => cbn [app] in Hin
    end.

Section Insertion.
Context `{Imported}.

Variables (eng : ExecEngine) (fc : ForkchoiceState) (updateSafe : bool)
          (conductor : SequencerConductor).

(** C2: when the engine answers the new-payload call with the status INVALID
    or INVALID_BLOCK_HASH, the insertion returns the severity PayloadErr and
    the gossip cache is empty on return; on any other status that is not
    VALID it returns TemporaryErr, no clear call is made and the cache still
    holds the envelope. *)
Theorem insertPayload_newPayload_status
    (envelope : option ExecutionPayloadEnvelope)
    (w w' : World) (out : Outcome (BlockInsertionErrType * error))
    (evs : list Event) (payload : option ExecutionPayload) (root : option Hash)
    (st : PayloadStatusV1) :
  insertPayload eng fc updateSafe conductor envelope w = (out, w') ->
  history w' = history w ++ evs ->
  In (CallNewPayload payload root (Some st, None)) evs ->
  match ps_Status st with
  | ExecutionInvalid | ExecutionInvalidBlockHash =>
      (exists err, out = Returned (BlockInsertPayloadErr, err)) /\
      gossip w' = None
  | ExecutionOther _ =>
      (exists err, out = Returned (BlockInsertTemporaryErr, err)) /\
      gossip w' = envelope /\ ~ In CallClear evs
  | ExecutionValid => True
  end.
Proof.
  unfold insertPayload. unfold_calls.
  intros Hrun Hevs Hin. revert Hrun.
  split_paths; intros Hrun; new_events Hrun Hevs; cbn [app] in Hin; in_cases;
    try discriminate; inversion Hin; subst; try congruence.
  all: repeat split; eauto.
  all: intros Hc; cbn [app] in Hc; in_cases; discriminate.
Qed.

(** C3: when the commit to the sequencer conductor fails, the insertion
    returns TemporaryErr with an error, the gossip cache is as it was, and
    the attempt made no call to the engine and no gossip call. *)
Theorem insertPayload_commit_failure
    (envelope : option ExecutionPayloadEnvelope)
    (w w' : World) (out : Outcome (BlockInsertionErrType * error))
    (evs : list Event) (env : ExecutionPayloadEnvelope) (e : error_val) :
  insertPayload eng fc updateSafe conductor envelope w = (out, w') ->
  history w' = history w ++ evs ->
  In (CallCommitUnsafePayload env (Some e)) evs ->
  (exists err, out = Returned (BlockInsertTemporaryErr, Some err)) /\
  gossip w' = gossip w /\
  Forall (fun ev => ~ engine_call ev /\ ~ gossip_call ev) evs.
Proof.
  unfold insertPayload. unfold_calls.
  intros Hrun Hevs Hin. revert Hrun.
  split_paths; intros Hrun; new_events Hrun Hevs; cbn [app] in Hin; in_cases;
    try discriminate; inversion Hin; subst; try congruence.
  split; [eauto|]. split; [reflexivity|].
  constructor; [|constructor]. simpl. tauto.
Qed.

(** C4: when the forkchoice update after the new-payload call fails with an
    error that carries an [eth.InputError], the gossip cache is cleared before
    the insertion returns; the severity is PayloadErr for the code
    InvalidForkchoiceState (and PrestateErr for every other code). *)
Theorem insertPayload_forkchoice_input_error
    (envelope : option ExecutionPayloadEnvelope)
    (w w' : World) (out : Outcome (BlockInsertionErrType * error))
    (evs : list Event) (fc' : ForkchoiceState)
    (attrs : option PayloadAttributes)
    (fcRes : option ForkchoiceUpdatedResult) (e : error_val)
    (inputErr : error * ErrorCode) :
  insertPayload eng fc updateSafe conductor envelope w = (out, w') ->
  history w' = history w ++ evs ->
  In (CallForkchoiceUpdate fc' attrs (fcRes, Some e)) evs ->
  errors_As e = Some inputErr ->
  gossip w' = None /\
  (exists before, evs = before ++ [CallClear]) /\
  match InputError_Code inputErr with
  | InvalidForkchoiceState =>
      exists err, out = Returned (BlockInsertPayloadErr, Some err)
  | InvalidPayloadAttributes | OtherCode _ =>
      exists err, out = Returned (BlockInsertPrestateErr, Some err)
  end.
Proof.
  unfold insertPayload. unfold_calls.
  intros Hrun Hevs Hin Has. revert Hrun.
  split_paths; intros Hrun; new_events Hrun Hevs; cbn [app] in Hin; in_cases;
    try discriminate; inversion Hin; subst; try congruence.
  all: split; [reflexivity|]; split; [eexists (_ :: _ :: _ :: _ :: nil); reflexivity|].
  all: eauto.
Qed.

(** C5, as the code has it: a forkchoice-update error that carries an
    [eth.InputError] whose code is neither InvalidForkchoiceState nor
    InvalidPayloadAttributes gives the severity PrestateErr, in
    [startPayload] and in [insertPayload]. *)
Theorem forkchoice_unknown_code_is_prestate
    (e : error_val) (inputErr : error * ErrorCode) :
  errors_As e = Some inputErr ->
  InputError_Code inputErr <> InvalidForkchoiceState ->
  InputError_Code inputErr <> InvalidPayloadAttributes ->
  (forall attrs w w' out evs fc' attrs' fcRes,
      startPayload eng fc attrs w = (out, w') ->
      history w' = history w ++ evs ->
      In (CallForkchoiceUpdate fc' attrs' (fcRes, Some e)) evs ->
      exists err, out = Returned (PayloadID_zero, BlockInsertPrestateErr, Some err)) /\
  (forall envelope w w' out evs fc' attrs' fcRes,
      insertPayload eng fc updateSafe conductor envelope w = (out, w') ->
      history w' = history w ++ evs ->
      In (CallForkchoiceUpdate fc' attrs' (fcRes, Some e)) evs ->
      exists err, out = Returned (BlockInsertPrestateErr, Some err)).
Proof.
  intros Has Hfs Hpa. unfold InputError_Code in Hfs, Hpa. split.
  - intros attrs w w' out evs fc' attrs' fcRes.
    unfold startPayload. unfold_calls.
    intros Hrun Hevs Hin. revert Hrun.
    split_paths; intros Hrun; new_events Hrun Hevs; cbn [app] in Hin; in_cases;
      try discriminate; inversion Hin; subst; try congruence; eauto.
  - intros envelope w w' out evs fc' attrs' fcRes.
    unfold insertPayload. unfold_calls.
    intros Hrun Hevs Hin. revert Hrun.
    split_paths; intros Hrun; new_events Hrun Hevs; cbn [app] in Hin; in_cases;
      try discriminate; inversion Hin; subst; try congruence; eauto.
Qed.

End Insertion.

(** * Severity and error value *)

Section Severity.
Context `{Imported}.

Variables (eng : ExecEngine) (fc : ForkchoiceState) (updateSafe : bool)
          (conductor : SequencerConductor).

(** The contract of the two imported helpers that the severity property
    rests on: on a status that is not VALID they return an error. *)
Hypothesis ForkchoiceUpdateErr_not_nil :
  forall st, ps_Status st <> ExecutionValid -> ForkchoiceUpdateErr st <> None.
Hypothesis NewPayloadErr_not_nil :
  forall p st, ps_Status st <> ExecutionValid -> NewPayloadErr p st <> None.

Ltac helper_cases :=
  split; intros Hx; try discriminate; exfalso;
  first [ eapply ForkchoiceUpdateErr_not_nil; [|eassumption]; congruence
        | eapply NewPayloadErr_not_nil; [|eassumption]; congruence ].

Lemma startPayload_OK_iff_nil (attrs : option PayloadAttributes)
    (w w' : World) (id : PayloadID) (t : BlockInsertionErrType) (err : error) :
  startPayload eng fc attrs w = (Returned (id, t, err), w') ->
  (t = BlockInsertOK <-> err = None).
Proof.
  unfold startPayload. unfold_calls.
  split_paths; intros Hrun; inversion Hrun; subst; clear Hrun;
    try (split; congruence); helper_cases.
Qed.

Lemma insertPayload_OK_iff_nil (envelope : option ExecutionPayloadEnvelope)
    (w w' : World) (t : BlockInsertionErrType) (err : error) :
  insertPayload eng fc updateSafe conductor envelope w = (Returned (t, err), w') ->
  (t = BlockInsertOK <-> err = None).
Proof.
  unfold insertPayload. unfold_calls.
  split_paths; intros Hrun; inversion Hrun; subst; clear Hrun;
    try (split; congruence); helper_cases.
Qed.

Lemma confirmPayload_OK_iff_nil (payloadInfo : PayloadInfo)
    (builderClient : BuilderClient) (l2head : L2BlockRef)
    (w w' : World) (out : option ExecutionPayloadEnvelope)
    (t : BlockInsertionErrType) (err : error) :
  confirmPayload eng fc payloadInfo updateSafe conductor builderClient l2head w =
    (Returned (out, t, err), w') ->
  (t = BlockInsertOK <-> err = None).
Proof.
  unfold confirmPayload. unfold_calls.
  split_paths; intros Hrun; inversion Hrun; subst; clear Hrun;
    try (split; congruence);
    eapply insertPayload_OK_iff_nil; eassumption.
Qed.

End Severity.

Lemma spec_ForkchoiceUpdateErr_not_nil (st : PayloadStatusV1) :
  ps_Status st <> ExecutionValid -> spec_ForkchoiceUpdateErr st <> None.
Proof.
  unfold spec_ForkchoiceUpdateErr. destruct (ps_Status st); congruence.
Qed.

Lemma spec_NewPayloadErr_not_nil (p : ExecutionPayload) (st : PayloadStatusV1) :
  ps_Status st <> ExecutionValid -> spec_NewPayloadErr p st <> None.
Proof.
  unfold spec_NewPayloadErr. destruct (ps_Status st); congruence.
Qed.

(** C8: each of [startPayload], [insertPayload] and [confirmPayload], when it
    returns, returns the severity OK exactly when the error it returns is nil
    (so that a severity other than OK comes with an error).  The two helpers
    of package [eth] are the ones modelled from the spec. *)
Theorem severity_OK_iff_nil_error
    (deposit : byte) (eng : ExecEngine) (fc : ForkchoiceState)
    (updateSafe : bool) (conductor : SequencerConductor) :
  (forall attrs w w' id t err,
      @startPayload (spec_imports deposit) eng fc attrs w =
        (Returned (id, t, err), w') ->
      (t = BlockInsertOK <-> err = None)) /\
  (forall envelope w w' t err,
      @insertPayload (spec_imports deposit) eng fc updateSafe conductor envelope w =
        (Returned (t, err), w') ->
      (t = BlockInsertOK <-> err = None)) /\
  (forall payloadInfo builderClient l2head w w' out t err,
      @confirmPayload (spec_imports deposit) eng fc payloadInfo updateSafe
        conductor builderClient l2head w =
        (Returned (out, t, err), w') ->
      (t = BlockInsertOK <-> err = None)).
Proof.
  split; [|split].
  - intros attrs w w' id t err Hrun.
    eapply (@startPayload_OK_iff_nil (spec_imports deposit));
      [exact spec_ForkchoiceUpdateErr_not_nil|exact Hrun].
  - intros envelope w w' t err Hrun.
    eapply (@insertPayload_OK_iff_nil (spec_imports deposit));
      [exact spec_ForkchoiceUpdateErr_not_nil|exact spec_NewPayloadErr_not_nil
      |exact Hrun].
  - intros payloadInfo builderClient l2head w w' out t err Hrun.
    eapply (@confirmPayload_OK_iff_nil (spec_imports deposit));
      [exact spec_ForkchoiceUpdateErr_not_nil|exact spec_NewPayloadErr_not_nil
      |exact Hrun].
Qed.

(** * Confirming a build with a builder envelope *)

Section Confirm.
Context `{Imported}.

Variables (eng : ExecEngine) (fc : ForkchoiceState) (updateSafe : bool)
          (conductor : SequencerConductor).

(** C6: when the race has returned a builder envelope (and no error), the
    builder envelope is inserted first.  If that insertion returns an error,
    the engine envelope is inserted next and its severity and error are what
    [confirmPayload] returns, with the engine envelope.  If it returns no
    error, [confirmPayload] returns the builder envelope with the severity of
    that insertion and the nil error. *)
Theorem confirmPayload_builder_fallback
    (payloadInfo : PayloadInfo) (builderClient : BuilderClient)
    (l2head : L2BlockRef) (w w1 : World)
    (engineEnvelope : option ExecutionPayloadEnvelope)
    (builderEnvelope : ExecutionPayloadEnvelope) (profit : option Z) :
  gossip w = None ->
  getPayloadWithBuilderPayload eng payloadInfo l2head builderClient
      (log_call (CallGet None) w) =
    (Returned (engineEnvelope, Some builderEnvelope, profit, None), w1) ->
  (forall errTyp e w2,
      insertPayload eng fc updateSafe conductor (Some builderEnvelope) w1 =
        (Returned (errTyp, Some e), w2) ->
      forall errType err w3,
        insertPayload eng fc updateSafe conductor engineEnvelope w2 =
          (Returned (errType, err), w3) ->
        confirmPayload eng fc payloadInfo updateSafe conductor builderClient l2head w =
          (Returned (engineEnvelope, errType, err), w3)) /\
  (forall errTyp w2,
      insertPayload eng fc updateSafe conductor (Some builderEnvelope) w1 =
        (Returned (errTyp, None), w2) ->
      confirmPayload eng fc payloadInfo updateSafe conductor builderClient l2head w =
        (Returned (Some builderEnvelope, errTyp, None), w2)).
Proof.
  intros Hcache Hrace.
  split.
  - intros errTyp e w2 Hb errType err w3 He.
    unfold confirmPayload. unfold_calls.
    rewrite Hcache. unfold log_call in Hrace. rewrite Hcache in Hrace.
    rewrite Hrace, Hb, He. reflexivity.
  - intros errTyp w2 Hb.
    unfold confirmPayload. unfold_calls.
    rewrite Hcache. unfold log_call in Hrace. rewrite Hcache in Hrace.
    rewrite Hrace, Hb. reflexivity.
Qed.

End Confirm.

(** * The race of the engine and the builder *)

Section Race.

Variables (eng : ExecEngine) (payloadInfo : PayloadInfo) (l2head : L2BlockRef)
          (builder : BuilderClient).

(** C7: when the race returns a builder envelope, the engine envelope is
    there and the builder envelope carries the engine envelope's
    [ParentBeaconBlockRoot], whatever the builder had put in that field; the
    payload is the one the builder answered with. *)
Theorem getPayloadWithBuilderPayload_beacon_root
    (w w' : World) (engineEnvelope : option ExecutionPayloadEnvelope)
    (builderEnvelope : ExecutionPayloadEnvelope) (profit : option Z)
    (err : error) :
  getPayloadWithBuilderPayload eng payloadInfo l2head builder w =
    (Returned (engineEnvelope, Some builderEnvelope, profit, err), w') ->
  exists eenv answered,
    engineEnvelope = Some eenv /\
    env_ParentBeaconBlockRoot builderEnvelope = env_ParentBeaconBlockRoot eenv /\
    In (CallBuilderGetPayload l2head (Some answered, profit, None)) (history w') /\
    env_ExecutionPayload builderEnvelope = env_ExecutionPayload answered.
Proof.
  unfold getPayloadWithBuilderPayload. unfold_calls. cbn [history gossip].
  split_paths; intros Hrun; inversion Hrun; subst; clear Hrun.
  repeat match goal with
         | Hsel : (_, _) = (_, _) |- _ => inversion Hsel; subst; clear Hsel
         | Hsel : Returned _ = Returned _ |- _ => inversion Hsel; subst; clear Hsel
         | Hsel : Some _ = Some _ |- _ => inversion Hsel; subst; clear Hsel
         end.
  eexists _, _. split; [reflexivity|]. split; [reflexivity|]. split.
  - cbn [history]. apply in_or_app. left. apply in_or_app. right.
    left. reflexivity.
  - cbn [env_ExecutionPayload]. congruence.
Qed.

(** C10: when the builder's result is the one selected and the engine call
    has returned an error with a nil envelope, the race does not return: the
    copy of [ParentBeaconBlockRoot] reads through the nil engine envelope. *)
Theorem getPayloadWithBuilderPayload_nil_engine_envelope_panics
    (w : World) (benv : ExecutionPayloadEnvelope) (payload : ExecutionPayload)
    (profit : option Z) (e : error_val) :
  let h1 := history w ++ [CallBuilderEnabled true] in
  let h2 := h1 ++ [CallBuilderGetPayload l2head (Some benv, profit, None)] in
  let h3 := h2 ++ [CallGetPayload payloadInfo (None, Some e)] in
  builder_Enabled builder (history w) = true ->
  builder_GetPayload builder h1 l2head = (Some benv, profit, None) ->
  env_ExecutionPayload benv = Some payload ->
  eng_GetPayload eng h2 payloadInfo = (None, Some e) ->
  builder_late builder h3 = false ->
  getPayloadWithBuilderPayload eng payloadInfo l2head builder w =
    (Panicked, {| gossip := gossip w; history := h3 |}).
Proof.
  intros h1 h2 h3. subst h1 h2 h3. intros Hen Hans Hpay Hget Hlate.
  unfold getPayloadWithBuilderPayload. unfold_calls. cbn [history gossip].
  rewrite Hen. cbn [negb history gossip]. rewrite Hans. cbn [history gossip].
  rewrite Hget. cbn [history gossip]. rewrite Hlate, Hpay. reflexivity.
Qed.

End Race.

(** * The properties on concrete runs *)

(** The spec's example [D, D, N, N] is accepted. *)
Lemma sanityCheckPayload_accepts_iff_witness :
  @accepts imports_7e (payload_of [deposit_tx; deposit_tx; user_tx; user_tx]) /\
  @first_is_deposit imports_7e [deposit_tx; deposit_tx; user_tx; user_tx] /\
  Forall (fun tx => tx <> []) [deposit_tx; deposit_tx; user_tx; user_tx] /\
  @deposits_form_prefix imports_7e [deposit_tx; deposit_tx; user_tx; user_tx].
Proof.
  assert (Hacc : @accepts imports_7e
                   (payload_of [deposit_tx; deposit_tx; user_tx; user_tx]))
    by reflexivity.
  split; [exact Hacc|].
  exact (proj1 (proj1 (@sanityCheckPayload_accepts_iff imports_7e
                         (payload_of [deposit_tx; deposit_tx; user_tx; user_tx])))
               Hacc).
Defined.

(** An engine that finds the block invalid: PayloadErr, empty cache. *)
Lemma insertPayload_newPayload_status_witness :
  In (CallNewPayload (Some engine_block) (Some [xbe])
        (Some (status_of ExecutionInvalid), None))
     (history (snd (run_insert rejecting_engine (fixed_conductor None)))) /\
  (exists err,
      fst (run_insert rejecting_engine (fixed_conductor None)) =
      Returned (BlockInsertPayloadErr, err)) /\
  gossip (snd (run_insert rejecting_engine (fixed_conductor None))) = None.
Proof.
  assert (Hin : In (CallNewPayload (Some engine_block) (Some [xbe])
                      (Some (status_of ExecutionInvalid), None))
                   (history (snd (run_insert rejecting_engine (fixed_conductor None)))))
    by (vm_compute; auto 10).
  split; [exact Hin|].
  exact (@insertPayload_newPayload_status imports_7e rejecting_engine fc0 false
           (fixed_conductor None) (Some engine_envelope) fresh_world _ _ _ _ _ _
           (surjective_pairing (run_insert rejecting_engine (fixed_conductor None)))
           eq_refl Hin).
Defined.

(** A conductor that refuses the commit: TemporaryErr, nothing else done. *)
Lemma insertPayload_commit_failure_witness :
  In (CallCommitUnsafePayload engine_envelope (Some (foreignError 1)))
     (history (snd (run_insert valid_engine (fixed_conductor (Some (foreignError 1)))))) /\
  (exists err,
      fst (run_insert valid_engine (fixed_conductor (Some (foreignError 1)))) =
      Returned (BlockInsertTemporaryErr, Some err)) /\
  gossip (snd (run_insert valid_engine (fixed_conductor (Some (foreignError 1))))) =
    gossip fresh_world /\
  Forall (fun ev => ~ engine_call ev /\ ~ gossip_call ev)
    (history (snd (run_insert valid_engine (fixed_conductor (Some (foreignError 1)))))).
Proof.
  assert (Hin : In (CallCommitUnsafePayload engine_envelope (Some (foreignError 1)))
                   (history (snd (run_insert valid_engine
                                    (fixed_conductor (Some (foreignError 1)))))))
    by (vm_compute; auto 10).
  split; [exact Hin|].
  exact (@insertPayload_commit_failure imports_7e valid_engine fc0 false
           (fixed_conductor (Some (foreignError 1))) (Some engine_envelope)
           fresh_world _ _ _ _ _
           (surjective_pairing
              (run_insert valid_engine (fixed_conductor (Some (foreignError 1)))))
           eq_refl Hin).
Defined.

(** A forkchoice update refused as inconsistent: PayloadErr, cache cleared. *)
Lemma insertPayload_forkchoice_input_error_witness :
  errors_As inconsistent_forkchoice = Some (None, InvalidForkchoiceState) /\
  gossip (snd (run_insert (forkchoice_error_engine inconsistent_forkchoice)
                 (fixed_conductor None))) = None /\
  (exists before,
      history (snd (run_insert (forkchoice_error_engine inconsistent_forkchoice)
                      (fixed_conductor None))) = before ++ [CallClear]) /\
  (exists err,
      fst (run_insert (forkchoice_error_engine inconsistent_forkchoice)
             (fixed_conductor None)) =
      Returned (BlockInsertPayloadErr, Some err)).
Proof.
  split; [reflexivity|].
  refine (@insertPayload_forkchoice_input_error imports_7e
            (forkchoice_error_engine inconsistent_forkchoice) fc0 false
            (fixed_conductor None) (Some engine_envelope) fresh_world _ _ _
            {| fc_HeadBlockHash := [x0e]; fc_SafeBlockHash := [x00];
               fc_FinalizedBlockHash := [x00] |}
            None None inconsistent_forkchoice (None, InvalidForkchoiceState)
            (surjective_pairing
               (run_insert (forkchoice_error_engine inconsistent_forkchoice)
                  (fixed_conductor None)))
            eq_refl _ eq_refl).
  vm_compute. auto 10.
Defined.

(** C5 as the spec words it fails: on an error that carries an unknown code,
    neither [startPayload] nor [insertPayload] returns TemporaryErr. *)
Lemma forkchoice_unknown_code_not_temporary :
  errors_As unknown_code = Some (None, OtherCode 7) /\
  ~ (exists id err,
        fst (run_start (forkchoice_error_engine unknown_code)) =
        Returned (id, BlockInsertTemporaryErr, err)) /\
  ~ (exists err,
        fst (run_insert (forkchoice_error_engine unknown_code) (fixed_conductor None)) =
        Returned (BlockInsertTemporaryErr, err)).
Proof.
  split; [reflexivity|]. split.
  - intros (id & err & Hrun). vm_compute in Hrun. discriminate.
  - intros (err & Hrun). vm_compute in Hrun. discriminate.
Qed.

(** The same two runs return PrestateErr. *)
Lemma forkchoice_unknown_code_is_prestate_witness :
  (exists err,
      fst (run_start (forkchoice_error_engine unknown_code)) =
      Returned (PayloadID_zero, BlockInsertPrestateErr, Some err)) /\
  (exists err,
      fst (run_insert (forkchoice_error_engine unknown_code) (fixed_conductor None)) =
      Returned (BlockInsertPrestateErr, Some err)).
Proof.
  assert (Hcode1 : InputError_Code (None, OtherCode 7) <> InvalidForkchoiceState)
    by (simpl; discriminate).
  assert (Hcode2 : InputError_Code (None, OtherCode 7) <> InvalidPayloadAttributes)
    by (simpl; discriminate).
  pose proof (@forkchoice_unknown_code_is_prestate imports_7e
                (forkchoice_error_engine unknown_code) fc0 false
                (fixed_conductor None) unknown_code (None, OtherCode 7)
                eq_refl Hcode1 Hcode2) as [Hstart Hinsert].
  split.
  - refine (Hstart None fresh_world _ _ _ fc0 None None
              (surjective_pairing (run_start (forkchoice_error_engine unknown_code)))
              eq_refl _).
    vm_compute. auto 10.
  - refine (Hinsert (Some engine_envelope) fresh_world _ _ _
              {| fc_HeadBlockHash := [x0e]; fc_SafeBlockHash := [x00];
                 fc_FinalizedBlockHash := [x00] |}
              None None
              (surjective_pairing
                 (run_insert (forkchoice_error_engine unknown_code)
                    (fixed_conductor None)))
              eq_refl _).
    vm_compute. auto 10.
Defined.

(** The builder's block is refused by the engine and the engine's own block
    is inserted instead: the caller sees the engine envelope and OK. *)
Lemma confirmPayload_builder_fallback_witness :
  run_race picky_engine prompt_builder (log_call (CallGet None) fresh_world) =
    (Returned (Some engine_envelope, Some builder_envelope_filled, Some 7%Z, None),
     snd (run_race picky_engine prompt_builder (log_call (CallGet None) fresh_world))) /\
  (exists e,
      fst (@insertPayload imports_7e picky_engine fc0 false (fixed_conductor None)
             (Some builder_envelope_filled)
             (snd (run_race picky_engine prompt_builder
                     (log_call (CallGet None) fresh_world)))) =
      Returned (BlockInsertPayloadErr, Some e)) /\
  fst (run_confirm picky_engine prompt_builder) =
    Returned (Some engine_envelope, BlockInsertOK, None).
Proof.
  assert (Hrace :
    run_race picky_engine prompt_builder (log_call (CallGet None) fresh_world) =
    (Returned (Some engine_envelope, Some builder_envelope_filled, Some 7%Z, None),
     snd (run_race picky_engine prompt_builder (log_call (CallGet None) fresh_world))))
    by (vm_compute; reflexivity).
  split; [exact Hrace|]. split; [eexists; vm_compute; reflexivity|].
  pose proof (proj1 (@confirmPayload_builder_fallback imports_7e picky_engine fc0
                       false (fixed_conductor None) info0 prompt_builder head0
                       fresh_world _ _ _ _ eq_refl Hrace)) as Hfallback.
  assert (Hbuilder :
    @insertPayload imports_7e picky_engine fc0 false (fixed_conductor None)
      (Some builder_envelope_filled)
      (snd (run_race picky_engine prompt_builder
              (log_call (CallGet None) fresh_world))) =
    (Returned (BlockInsertPayloadErr, Some (errorString "new payload failed")),
     snd (@insertPayload imports_7e picky_engine fc0 false (fixed_conductor None)
            (Some builder_envelope_filled)
            (snd (run_race picky_engine prompt_builder
                    (log_call (CallGet None) fresh_world))))))
    by (vm_compute; reflexivity).
  unfold run_confirm.
  rewrite (Hfallback _ _ _ Hbuilder BlockInsertOK None
             (snd (run_confirm picky_engine prompt_builder)));
    [reflexivity|].
  vm_compute. reflexivity.
Defined.

(** The builder's envelope comes back with the engine envelope's root. *)
Lemma getPayloadWithBuilderPayload_beacon_root_witness :
  run_race valid_engine prompt_builder fresh_world =
    (Returned (Some engine_envelope, Some builder_envelope_filled, Some 7%Z, None),
     snd (run_race valid_engine prompt_builder fresh_world)) /\
  exists eenv answered,
    Some engine_envelope = Some eenv /\
    env_ParentBeaconBlockRoot builder_envelope_filled =
      env_ParentBeaconBlockRoot eenv /\
    In (CallBuilderGetPayload head0 (Some answered, Some 7%Z, None))
       (history (snd (run_race valid_engine prompt_builder fresh_world))) /\
    env_ExecutionPayload builder_envelope_filled = env_ExecutionPayload answered.
Proof.
  assert (Hrace :
    run_race valid_engine prompt_builder fresh_world =
    (Returned (Some engine_envelope, Some builder_envelope_filled, Some 7%Z, None),
     snd (run_race valid_engine prompt_builder fresh_world)))
    by (vm_compute; reflexivity).
  split; [exact Hrace|].
  exact (@getPayloadWithBuilderPayload_beacon_root valid_engine info0 head0
           prompt_builder fresh_world _ _ _ _ _ Hrace).
Defined.

(** Three runs with the helpers of the spec: a build that starts, an
    insertion that the engine refuses, a confirmation that succeeds. *)
Lemma severity_OK_iff_nil_error_witness :
  (fst (@startPayload (spec_imports x7e) valid_engine fc0 None fresh_world) =
     Returned (PayloadID_zero, BlockInsertOK, None) /\
   (BlockInsertOK = BlockInsertOK <-> @None error_val = None)) /\
  (fst (@insertPayload (spec_imports x7e) rejecting_engine fc0 false
          (fixed_conductor None) (Some engine_envelope) fresh_world) =
     Returned (BlockInsertPayloadErr,
               Some (errorString "new payload: status INVALID")) /\
   (BlockInsertPayloadErr = BlockInsertOK <->
    Some (errorString "new payload: status INVALID") = None)) /\
  (fst (@confirmPayload (spec_imports x7e) picky_engine fc0 info0 false
          (fixed_conductor None) prompt_builder head0 fresh_world) =
     Returned (Some engine_envelope, BlockInsertOK, None) /\
   (BlockInsertOK = BlockInsertOK <-> @None error_val = None)).
Proof.
  split; [|split]; (split; [vm_compute; reflexivity|]).
  - refine (proj1 (@severity_OK_iff_nil_error x7e valid_engine fc0 false
                     (fixed_conductor None))
              None fresh_world
              (snd (@startPayload (spec_imports x7e) valid_engine fc0 None
                      fresh_world))
              PayloadID_zero _ _ _).
    vm_compute. reflexivity.
  - refine (proj1 (proj2 (@severity_OK_iff_nil_error x7e rejecting_engine
                            fc0 false (fixed_conductor None)))
              (Some engine_envelope) fresh_world
              (snd (@insertPayload (spec_imports x7e) rejecting_engine fc0 false
                      (fixed_conductor None) (Some engine_envelope) fresh_world))
              _ _ _).
    vm_compute. reflexivity.
  - refine (proj2 (proj2 (@severity_OK_iff_nil_error x7e picky_engine
                            fc0 false (fixed_conductor None)))
              info0 prompt_builder head0 fresh_world
              (snd (@confirmPayload (spec_imports x7e) picky_engine fc0 info0
                      false (fixed_conductor None) prompt_builder head0
                      fresh_world))
              (Some engine_envelope) _ _ _).
    vm_compute. reflexivity.
Defined.

(** The engine has lost the payload and the builder answers in time: the
    race panics; had the builder been late, the engine's error would have been
    returned. *)
Lemma getPayloadWithBuilderPayload_nil_engine_envelope_panics_witness :
  fst (run_race forgetful_engine prompt_builder fresh_world) = Panicked /\
  fst (run_race forgetful_engine
         (fixed_builder true (Some builder_envelope, Some 7%Z, None) true)
         fresh_world) =
    Returned (None, None, None, Some (foreignError 2)).
Proof.
  split; [|reflexivity].
  unfold run_race.
  rewrite (@getPayloadWithBuilderPayload_nil_engine_envelope_panics
             forgetful_engine info0 head0 prompt_builder fresh_world
             builder_envelope builder_block (Some 7%Z) (foreignError 2)
             eq_refl eq_refl eq_refl eq_refl eq_refl).
  reflexivity.
Defined.

(** * Further properties of the payload validator *)

Section ValidatorMore.
Context `{Imported}.

(** X1: [lastDeposit] returns the index of the last deposit of the leading run of
    deposits; when the run is empty (also when there is no transaction) it
    returns 0 as well, with a nil error. *)
Theorem lastDeposit_leading_run (ds rest : list Data) :
  Forall privileged ds ->
  (rest = [] \/ exists tx r, rest = tx :: r /\ tx <> [] /\ ~ privileged tx) ->
  lastDeposit (ds ++ rest) = (length ds - 1, None).
Proof.
  intros Hds Hrest. unfold lastDeposit.
  rewrite (lastDeposit_from_run Hds Hrest). destruct ds; reflexivity.
Qed.

Lemma lastDeposit_from_error (txs : list Data) :
  forall i last,
    (exists n e, lastDeposit_from i last txs = (n, Some e)) <->
    (exists ds r, txs = ds ++ [] :: r /\ Forall privileged ds).
Proof.
  induction txs as [|tx txs IH]; intros i last.
  - simpl. split.
    + intros (n & e & Hx). discriminate.
    + intros (ds & r & Hx & _). destruct ds; discriminate.
  - simpl.
    destruct (isDepositTx_cases tx) as [(-> & e & He)|[(Hp & He)|(Hne & Hnp & He)]];
      rewrite He.
    + split; [|eauto]. intros _. exists [], txs. split; [reflexivity|constructor].
    + rewrite IH. split.
      * intros (ds & r & -> & Hds). exists (tx :: ds), r. split; [reflexivity|].
        constructor; assumption.
      * intros (ds & r & Hx & Hds). destruct ds as [|d ds].
        -- injection Hx as -> _. destruct Hp as [? Hp]. discriminate.
        -- injection Hx as -> ->. exists ds, r. split; [reflexivity|].
           now inversion Hds.
    + split.
      * intros (n & e & Hx). discriminate.
      * intros (ds & r & Hx & Hds). exfalso. destruct ds as [|d ds].
        -- injection Hx as -> _. contradiction.
        -- injection Hx as -> _. inversion Hds; subst. contradiction.
Qed.

Lemma lastDeposit_from_error_value (txs : list Data) :
  forall i last n e, lastDeposit_from i last txs = (n, Some e) -> n = 0.
Proof.
  induction txs as [|tx txs IH]; intros i last n e; simpl.
  - discriminate.
  - destruct (isDepositTx tx) as [[|] [err|]].
    + intros Hx. now injection Hx as <- _.
    + apply IH.
    + intros Hx. now injection Hx as <- _.
    + discriminate.
Qed.

(** X2: [lastDeposit] returns an error exactly when a zero-length transaction
    comes right after the leading run of deposits (or first); the index
    returned with the error is 0. *)
Theorem lastDeposit_error_iff (txs : list Data) :
  ((exists e, snd (lastDeposit txs) = Some e) <->
   (exists ds r, txs = ds ++ [] :: r /\ Forall privileged ds)) /\
  (forall e, snd (lastDeposit txs) = Some e -> fst (lastDeposit txs) = 0).
Proof.
  unfold lastDeposit. split.
  - rewrite <- (lastDeposit_from_error txs 0 0).
    destruct (lastDeposit_from 0 0 txs) as [n err]. simpl. split.
    + intros [e ->]. eauto.
    + intros (n' & e & Hx). injection Hx as _ ->. eauto.
  - intros e. destruct (lastDeposit_from 0 0 txs) as [n err] eqn:Hl. simpl.
    intros ->. eapply lastDeposit_from_error_value. exact Hl.
Qed.

Lemma noDepositFrom_deposit (ns : list Data) (dep : Data) (r : list Data) :
  Forall (fun tx => tx <> [] /\ ~ privileged tx) ns ->
  privileged dep ->
  forall i,
    noDepositFrom i (ns ++ dep :: r) =
    Some (fmt_Errorf
            "deposit tx (%d) after other tx in l2 block with prev deposit at idx %d"
            None).
Proof.
  intros Hns Hdep. induction Hns as [|n ns [Hne Hnp] _ IH]; intros i; simpl.
  - now rewrite (isDepositTx_privileged Hdep).
  - rewrite (isDepositTx_other Hne Hnp). apply IH.
Qed.

(** X3: A deposit that comes after a transaction that is not a deposit makes the
    validator return the deposit-after-other-transaction error, whatever
    follows that deposit. *)
Theorem sanityCheckPayload_deposit_after_other
    (p : ExecutionPayload) (d : Data) (ds : list Data) (n : Data)
    (ns : list Data) (dep : Data) (r : list Data) :
  ep_Transactions p = (d :: ds) ++ (n :: ns) ++ dep :: r ->
  Forall privileged (d :: ds) ->
  Forall (fun tx => tx <> [] /\ ~ privileged tx) (n :: ns) ->
  privileged dep ->
  sanityCheckPayload (Some p) =
  Returned (Some (fmt_Errorf
                    "deposit tx (%d) after other tx in l2 block with prev deposit at idx %d"
                    None)).
Proof.
  intros Htxs Hds Hns Hdep.
  assert (Hd : privileged d) by now inversion Hds.
  destruct Hd as [r0 ->].
  assert (Hrest : exists tx r', (n :: ns) ++ dep :: r = tx :: r' /\ tx <> [] /\
                                ~ privileged tx).
  { inversion Hns as [|? ? [Hne Hnp] _]; subst.
    exists n, (ns ++ dep :: r). auto. }
  assert (Hnd : forall i, noDepositFrom i ((n :: ns) ++ dep :: r) =
                Some (fmt_Errorf
                        "deposit tx (%d) after other tx in l2 block with prev deposit at idx %d"
                        None))
    by (now apply noDepositFrom_deposit).
  revert Htxs Hrest Hnd. generalize ((n :: ns) ++ dep :: r). intros rest Htxs Hrest Hnd.
  unfold sanityCheckPayload. rewrite Htxs.
  cbn [app]. rewrite (byte_dec_lb (eq_refl DepositTxType)). cbn [negb].
  change ((DepositTxType :: r0) :: ds ++ rest)
    with (((DepositTxType :: r0) :: ds) ++ rest).
  unfold lastDeposit.
  rewrite (@lastDeposit_from_run _ ((DepositTxType :: r0) :: ds) rest Hds);
    [|now right].
  replace (S (0 + length ((DepositTxType :: r0) :: ds) - 1))
    with (length ((DepositTxType :: r0) :: ds)) by (simpl; lia).
  rewrite skipn_length_app. f_equal. apply Hnd.
Qed.

Lemma isDepositTx_hd (tx1 tx2 : Data) :
  hd_error tx1 = hd_error tx2 -> isDepositTx tx1 = isDepositTx tx2.
Proof.
  destruct tx1, tx2; simpl; intros Hx; try discriminate; [reflexivity|].
  now injection Hx as ->.
Qed.

Lemma lastDeposit_from_hd (txs1 : list Data) :
  forall txs2 i last,
    map (@hd_error byte) txs1 = map (@hd_error byte) txs2 ->
    lastDeposit_from i last txs1 = lastDeposit_from i last txs2.
Proof.
  induction txs1 as [|tx1 txs1 IH]; intros [|tx2 txs2] i last Hmap;
    try discriminate; [reflexivity|].
  simpl in Hmap. injection Hmap as Hhd Hmap. simpl.
  rewrite (isDepositTx_hd _ _ Hhd).
  destruct (isDepositTx tx2) as [[|] [e|]]; auto.
Qed.

Lemma noDepositFrom_hd (txs1 : list Data) :
  forall txs2 i,
    map (@hd_error byte) txs1 = map (@hd_error byte) txs2 ->
    noDepositFrom i txs1 = noDepositFrom i txs2.
Proof.
  induction txs1 as [|tx1 txs1 IH]; intros [|tx2 txs2] i Hmap;
    try discriminate; [reflexivity|].
  simpl in Hmap. injection Hmap as Hhd Hmap. simpl.
  rewrite (isDepositTx_hd _ _ Hhd).
  destruct (isDepositTx tx2) as [[|] [e|]]; auto.
Qed.

Lemma skipn_map (A B : Type) (f : A -> B) (n : nat) (l : list A) :
  skipn n (map f l) = map f (skipn n l).
Proof.
  revert l. induction n as [|n IH]; intros [|a l]; simpl; auto.
Qed.

(** X4: The validator reads nothing but the leading byte of each transaction (and
    whether there is one): two payloads whose transactions agree on these get
    the same verdict, error included. *)
Theorem sanityCheckPayload_reads_type_bytes (p1 p2 : ExecutionPayload) :
  map (@hd_error byte) (ep_Transactions p1) =
  map (@hd_error byte) (ep_Transactions p2) ->
  sanityCheckPayload (Some p1) = sanityCheckPayload (Some p2).
Proof.
  intros Hmap. unfold sanityCheckPayload.
  destruct (ep_Transactions p1) as [|tx1 txs1] eqn:E1,
           (ep_Transactions p2) as [|tx2 txs2] eqn:E2;
    try discriminate; [reflexivity|].
  pose proof Hmap as Hmap'. simpl in Hmap'. injection Hmap' as Hhd Htl.
  destruct tx1 as [|b1 r1], tx2 as [|b2 r2]; try discriminate; [reflexivity|].
  simpl in Hhd. injection Hhd as ->.
  destruct (Byte.eqb b2 DepositTxType); cbn [negb]; [|reflexivity].
  unfold lastDeposit.
  rewrite (lastDeposit_from_hd _ _ 0 0 Hmap).
  destruct (lastDeposit_from 0 0 ((b2 :: r2) :: txs2)) as [last [e|]];
    [reflexivity|].
  f_equal. apply noDepositFrom_hd.
  rewrite <- !skipn_map. now rewrite Hmap.
Qed.

(** X5: Acceptance is kept when a deposit is put in front, and when a decodable
    transaction that is not a deposit is put at the end. *)
Theorem accepts_extend (p : ExecutionPayload) (tx : Data) :
  accepts p ->
  (privileged tx ->
   accepts {| ep_ParentHash := ep_ParentHash p; ep_BlockNumber := ep_BlockNumber p;
              ep_BlockHash := ep_BlockHash p;
              ep_Transactions := tx :: ep_Transactions p |}) /\
  (tx <> [] -> ~ privileged tx ->
   accepts {| ep_ParentHash := ep_ParentHash p; ep_BlockNumber := ep_BlockNumber p;
              ep_BlockHash := ep_BlockHash p;
              ep_Transactions := ep_Transactions p ++ [tx] |}).
Proof.
  intros Hacc.
  apply sanityCheckPayload_accepts_run in Hacc as (d & ds & rest & Htxs & Hds & Hrest).
  split.
  - intros Hp. apply sanityCheckPayload_accepts_run. cbn [ep_Transactions].
    exists tx, (d :: ds), rest. rewrite Htxs.
    split; [reflexivity|]. split; [constructor|]; assumption.
  - intros Hne Hnp. apply sanityCheckPayload_accepts_run. cbn [ep_Transactions].
    exists d, ds, (rest ++ [tx]). rewrite Htxs.
    split; [now rewrite app_assoc|]. split; [assumption|].
    apply Forall_app. split; [assumption|]. constructor; [auto|constructor].
Qed.

End ValidatorMore.

(** * Further properties of [startPayload] *)

Section StartMore.
Context `{Imported}.

Variables (eng : ExecEngine) (fc : ForkchoiceState)
          (attrs : option PayloadAttributes) (w : World).

(** X6: [startPayload] makes one call, the forkchoice update with the state and
    the attributes it was given, and leaves the gossip cache alone, on every
    path (the panicking one included). *)
Theorem startPayload_single_call :
  snd (startPayload eng fc attrs w) =
  {| gossip := gossip w;
     history := history w ++
       [CallForkchoiceUpdate fc attrs (eng_ForkchoiceUpdate eng (history w) fc attrs)] |}.
Proof.
  unfold startPayload. unfold_calls. split_paths; reflexivity.
Qed.

(** X7: [startPayload] returns OK exactly when the engine answered without error,
    with the status VALID and a payload identifier; the identifier returned is
    the engine's and the error is nil. *)
Theorem startPayload_OK_iff (id : PayloadID) (err : error) :
  fst (startPayload eng fc attrs w) = Returned (id, BlockInsertOK, err) <->
  err = None /\
  exists res,
    eng_ForkchoiceUpdate eng (history w) fc attrs = (Some res, None) /\
    ps_Status (fcr_PayloadStatus res) = ExecutionValid /\
    fcr_PayloadID res = Some id.
Proof.
  unfold startPayload. unfold_calls.
  destruct (eng_ForkchoiceUpdate eng (history w) fc attrs) as [fcRes e].
  split.
  - split_paths; cbn [fst]; intros Hrun; inversion Hrun; subst.
    split; [reflexivity|]. eexists. repeat split; eauto.
  - intros (-> & res & Hans & Hst & Hid). injection Hans as -> ->.
    rewrite Hst, Hid. reflexivity.
Qed.

(** X8: When [startPayload] does not return OK, the payload identifier it
    returns is the zero identifier. *)
Theorem startPayload_failure_zero_id
    (id : PayloadID) (t : BlockInsertionErrType) (err : error) :
  fst (startPayload eng fc attrs w) = Returned (id, t, err) ->
  t <> BlockInsertOK ->
  id = PayloadID_zero.
Proof.
  unfold startPayload. unfold_calls.
  split_paths; cbn [fst]; intros Hrun Hsev; inversion Hrun; subst;
    congruence.
Qed.

(** X9: When the payload attributes must be dropped and when the caller must
    reset: [startPayload] returns PayloadErr exactly when the engine's error
    carries the code InvalidPayloadAttributes or the engine answers with the
    status INVALID or INVALID_BLOCK_HASH, and PrestateErr exactly when the
    engine's error carries an [eth.InputError] with any other code. *)
Theorem startPayload_severity_iff :
  ((exists id err,
       fst (startPayload eng fc attrs w) = Returned (id, BlockInsertPayloadErr, err)) <->
   (exists fcRes e inner,
       eng_ForkchoiceUpdate eng (history w) fc attrs = (fcRes, Some e) /\
       errors_As e = Some (inner, InvalidPayloadAttributes)) \/
   (exists res,
       eng_ForkchoiceUpdate eng (history w) fc attrs = (Some res, None) /\
       (ps_Status (fcr_PayloadStatus res) = ExecutionInvalid \/
        ps_Status (fcr_PayloadStatus res) = ExecutionInvalidBlockHash))) /\
  ((exists id err,
       fst (startPayload eng fc attrs w) = Returned (id, BlockInsertPrestateErr, err)) <->
   (exists fcRes e inner code,
       eng_ForkchoiceUpdate eng (history w) fc attrs = (fcRes, Some e) /\
       errors_As e = Some (inner, code) /\ code <> InvalidPayloadAttributes)).
Proof.
  unfold startPayload. unfold_calls.
  destruct (eng_ForkchoiceUpdate eng (history w) fc attrs) as [fcRes e].
  split; split.
  - intros (id & err & Hrun). revert Hrun.
    split_paths; cbn [fst]; intros Hrun; inversion Hrun; subst;
      first [ left; destruct p as [inner code]; cbn [snd] in *; subst;
              do 3 eexists; split; [reflexivity|eassumption]
            | right; eexists; split; [reflexivity|]; auto ].
  - intros [(fcRes' & e' & inner & Hans & Has)|(res & Hans & Hst)];
      injection Hans as -> ->.
    + rewrite Has. cbn [snd fst]. do 2 eexists. reflexivity.
    + destruct Hst as [-> | ->]; do 2 eexists; reflexivity.
  - intros (id & err & Hrun). revert Hrun.
    split_paths; cbn [fst]; intros Hrun; inversion Hrun; subst;
      destruct p as [inner code]; cbn [snd] in *; subst;
      do 4 eexists; (split; [reflexivity|]); (split; [eassumption|]); discriminate.
  - intros (fcRes' & e' & inner & code & Hans & Has & Hcode).
    injection Hans as -> ->. rewrite Has. cbn [snd fst].
    destruct code; [|contradiction|]; do 2 eexists; reflexivity.
Qed.

End StartMore.

(** * Further properties of [insertPayload] *)

Section InsertMore.
Context `{Imported}.

Variables (eng : ExecEngine) (fc : ForkchoiceState) (updateSafe : bool)
          (conductor : SequencerConductor).

Ltac insert_paths Hrun Hevs :=
  unfold insertPayload; unfold_calls;
  intros Hrun Hevs; revert Hrun;
  split_paths; intros Hrun; new_events Hrun Hevs; cbn [app].

(** X10: A payload that the validator rejects is a PayloadErr with the validator's
    error, and the world is left as it was; and an insertion makes no call at
    all only when the validator has not accepted the payload. *)
Theorem insertPayload_rejected_payload
    (env : ExecutionPayloadEnvelope) (w w' : World)
    (out : Outcome (BlockInsertionErrType * error)) (evs : list Event) :
  insertPayload eng fc updateSafe conductor (Some env) w = (out, w') ->
  history w' = history w ++ evs ->
  (forall e, sanityCheckPayload (env_ExecutionPayload env) = Returned (Some e) ->
             out = Returned (BlockInsertPayloadErr, Some e) /\ w' = w) /\
  (evs = [] <-> sanityCheckPayload (env_ExecutionPayload env) <> Returned None).
Proof.
  insert_paths Hrun Hevs.
  all: split; [intros ? Hrej|split; intros Hx]; try discriminate.
  all: try (exfalso; apply Hx; reflexivity).
  all: try reflexivity.
  injection Hrej as <-. split; [reflexivity|]. destruct w; reflexivity.
Qed.

(** X11: The calls of one insertion come in the order commit, gossip, new payload,
    forkchoice update, clear, each at most once, and there is no other call. *)
Theorem insertPayload_call_order
    (envelope : option ExecutionPayloadEnvelope) (w w' : World)
    (out : Outcome (BlockInsertionErrType * error)) (evs : list Event) :
  insertPayload eng fc updateSafe conductor envelope w = (out, w') ->
  history w' = history w ++ evs ->
  StronglySorted lt (map call_rank evs) /\
  Forall (fun ev => call_rank ev < 5) evs.
Proof.
  insert_paths Hrun Hevs.
  all: split; cbn [map call_rank]; repeat constructor.
Qed.

(** X12: Each call of an insertion has had its precondition, earlier in the
    same run: the conductor gets only the given envelope, after the validator
    has accepted its payload; the gossip call is preceded by a successful
    commit of the same envelope; the new-payload call gets the envelope's
    payload and beacon root and is preceded by the gossip call; and the
    forkchoice update is preceded by a new-payload call that the engine
    answered with VALID and no error, has no attributes, and carries the state
    whose head is the payload's block hash, whose safe head is that hash when
    [updateSafe] is set and unchanged otherwise, and whose finalized head is
    unchanged. *)
Theorem insertPayload_call_preconditions
    (envelope : option ExecutionPayloadEnvelope) (w w' : World)
    (out : Outcome (BlockInsertionErrType * error)) (evs : list Event) :
  insertPayload eng fc updateSafe conductor envelope w = (out, w') ->
  history w' = history w ++ evs ->
  (forall env r, In (CallCommitUnsafePayload env r) evs ->
     envelope = Some env /\
     sanityCheckPayload (env_ExecutionPayload env) = Returned None) /\
  (forall env, In (CallGossip env) evs ->
     exists before after,
       evs = before ++ CallGossip env :: after /\
       In (CallCommitUnsafePayload env None) before) /\
  (forall payload root r, In (CallNewPayload payload root r) evs ->
     exists env before after,
       envelope = Some env /\ payload = env_ExecutionPayload env /\
       root = env_ParentBeaconBlockRoot env /\
       evs = before ++ CallNewPayload payload root r :: after /\
       In (CallGossip env) before) /\
  (forall fc' attrs r, In (CallForkchoiceUpdate fc' attrs r) evs ->
     exists p root st before after,
       evs = before ++ CallForkchoiceUpdate fc' attrs r :: after /\
       In (CallNewPayload (Some p) root (Some st, None)) before /\
       ps_Status st = ExecutionValid /\ attrs = None /\
       fc' = advanced_forkchoice fc updateSafe p).
Proof.
  insert_paths Hrun Hevs.
  all: split; [|split; [|split]].
  all: intros; in_cases; try discriminate;
       match goal with Hin : _ = _ |- _ => inversion Hin; subst end.
  (* the commit *)
  all: try (split; [reflexivity|]; first
              [ assumption
              | match goal with
                | Hp : env_ExecutionPayload _ = Some _ |- _ =>
                    rewrite Hp; assumption
                end ]).
  (* the gossip call: one call before it *)
  all: try (do 2 eexists;
            split; [refine (@eq_refl _ ((_ :: nil) ++ _ :: _))|];
            simpl; auto; fail).
  (* the new-payload call: two calls before it *)
  all: try (do 3 eexists;
            split; [reflexivity|];
            split; [first [reflexivity|symmetry; eassumption]|];
            split; [reflexivity|];
            split; [refine (@eq_refl _ ((_ :: _ :: nil) ++ _ :: _))|];
            simpl; auto; fail).
  (* the forkchoice update: three calls before it *)
  all: do 5 eexists;
       split; [refine (@eq_refl _ ((_ :: _ :: _ :: nil) ++ _ :: _))|];
       split; [simpl; auto 10|];
       split; [eassumption|]; split; reflexivity.
Qed.

(** X13: An insertion that returns OK has made exactly the five calls, the engine
    answered VALID twice, the error is nil and the gossip cache is empty. *)
Theorem insertPayload_OK_effects
    (envelope : option ExecutionPayloadEnvelope) (w w' : World)
    (err : error) (evs : list Event) :
  insertPayload eng fc updateSafe conductor envelope w =
    (Returned (BlockInsertOK, err), w') ->
  history w' = history w ++ evs ->
  err = None /\ gossip w' = None /\
  exists env p st res,
    envelope = Some env /\ env_ExecutionPayload env = Some p /\
    ps_Status st = ExecutionValid /\
    ps_Status (fcr_PayloadStatus res) = ExecutionValid /\
    evs = [CallCommitUnsafePayload env None; CallGossip env;
           CallNewPayload (Some p) (env_ParentBeaconBlockRoot env) (Some st, None);
           CallForkchoiceUpdate (advanced_forkchoice fc updateSafe p) None
             (Some res, None);
           CallClear].
Proof.
  unfold insertPayload. unfold_calls.
  intros Hrun Hevs. revert Hrun.
  split_paths; intros Hrun; try discriminate;
    inversion Hrun; subst; clear Hrun; cbn [history gossip] in Hevs |- *.
  all: rewrite <- ?app_assoc in Hevs; apply app_inv_head in Hevs; subst.
  all: split; [reflexivity|]; split; [reflexivity|].
  all: do 4 eexists; repeat split; try eassumption; try reflexivity.
Qed.

(** X14: Once gossip has started, the cache is emptied before the insertion
    returns exactly when the severity is not TemporaryErr; with TemporaryErr
    no clear call is made and the cache holds the envelope, for the retry. *)
Theorem insertPayload_gossip_policy
    (envelope : option ExecutionPayloadEnvelope) (w w' : World)
    (t : BlockInsertionErrType) (err : error) (evs : list Event)
    (env : ExecutionPayloadEnvelope) :
  insertPayload eng fc updateSafe conductor envelope w =
    (Returned (t, err), w') ->
  history w' = history w ++ evs ->
  In (CallGossip env) evs ->
  (t = BlockInsertTemporaryErr ->
   gossip w' = Some env /\ ~ In CallClear evs) /\
  (t <> BlockInsertTemporaryErr ->
   gossip w' = None /\ exists before, evs = before ++ [CallClear]).
Proof.
  unfold insertPayload. unfold_calls.
  intros Hrun Hevs Hin. revert Hrun.
  split_paths; intros Hrun; try discriminate;
    inversion Hrun; subst; clear Hrun; cbn [history gossip] in Hevs |- *.
  all: rewrite <- ?app_assoc in Hevs;
       first [apply app_inv_head in Hevs | apply no_new_events in Hevs]; subst.
  all: cbn [app] in Hin; in_cases; try discriminate;
       match goal with Hx : CallGossip _ = CallGossip _ |- _ =>
         injection Hx as -> end.
  all: split; intros Hsev; try discriminate; try congruence.
  all: try (split; [reflexivity|]; intros Hc; cbn [app] in Hc; in_cases; discriminate).
  all: split; [reflexivity|].
  all: first [ eexists (_ :: _ :: _ :: nil); reflexivity
             | eexists (_ :: _ :: _ :: _ :: nil); reflexivity ].
Qed.

(** X15: An error of the engine itself is a TemporaryErr: an error of the
    new-payload call (whatever status comes with it), and an error of the
    forkchoice update that carries no [eth.InputError].  The cache then still
    holds the envelope. *)
Theorem insertPayload_engine_error_temporary
    (envelope : option ExecutionPayloadEnvelope) (w w' : World)
    (out : Outcome (BlockInsertionErrType * error)) (evs : list Event)
    (e : error_val) :
  insertPayload eng fc updateSafe conductor envelope w = (out, w') ->
  history w' = history w ++ evs ->
  ((exists payload root st, In (CallNewPayload payload root (st, Some e)) evs) \/
   (exists fc' attrs r, In (CallForkchoiceUpdate fc' attrs (r, Some e)) evs /\
                        errors_As e = None)) ->
  (exists format, out = Returned (BlockInsertTemporaryErr,
                                  Some (fmt_Errorf format (Some e)))) /\
  gossip w' = envelope.
Proof.
  insert_paths Hrun Hevs.
  all: intros [(payload & root & st & Hin)|(fc' & attrs & r & Hin & Has)];
       in_cases; try discriminate; inversion Hin; subst; try congruence.
  all: split; [eexists; reflexivity|reflexivity].
Qed.

(** X16: When the engine answers the forkchoice update without error and with a
    status that is not VALID, the insertion is a PayloadErr with the error
    that [ForkchoiceUpdateErr] makes of the status, and the cache is empty. *)
Theorem insertPayload_forkchoice_status_not_valid
    (envelope : option ExecutionPayloadEnvelope) (w w' : World)
    (out : Outcome (BlockInsertionErrType * error)) (evs : list Event)
    (fc' : ForkchoiceState) (attrs : option PayloadAttributes)
    (res : ForkchoiceUpdatedResult) :
  insertPayload eng fc updateSafe conductor envelope w = (out, w') ->
  history w' = history w ++ evs ->
  In (CallForkchoiceUpdate fc' attrs (Some res, None)) evs ->
  ps_Status (fcr_PayloadStatus res) <> ExecutionValid ->
  out = Returned (BlockInsertPayloadErr,
                  ForkchoiceUpdateErr (fcr_PayloadStatus res)) /\
  gossip w' = None.
Proof.
  insert_paths Hrun Hevs.
  all: intros Hin Hst; in_cases; try discriminate; inversion Hin; subst;
       try congruence.
  all: split; reflexivity.
Qed.

End InsertMore.

(** * Further properties of the race *)

Section RaceMore.

Variables (eng : ExecEngine) (payloadInfo : PayloadInfo) (l2head : L2BlockRef)
          (builder : BuilderClient).

Ltac race_paths Hrun Hevs :=
  unfold getPayloadWithBuilderPayload; unfold_calls;
  intros Hrun Hevs; revert Hrun;
  split_paths; intros Hrun; new_events Hrun Hevs; cbn [app].

(** What a run of the race adds to the history: retrieval calls only, among
    them one engine call, whose answer is what the race returns as engine
    envelope and error; the gossip cache is not touched. *)
Lemma race_history (w w' : World)
    (out : Outcome (option ExecutionPayloadEnvelope *
                    option ExecutionPayloadEnvelope * option Z * error)) :
  getPayloadWithBuilderPayload eng payloadInfo l2head builder w = (out, w') ->
  exists evs,
    history w' = history w ++ evs /\ gossip w' = gossip w /\
    Forall retrieval_call evs /\
    forall info e err, In (CallGetPayload info (e, err)) evs ->
      info = payloadInfo /\
      (out = Panicked \/ exists b p, out = Returned (e, b, p, err)).
Proof.
  unfold getPayloadWithBuilderPayload. unfold_calls.
  split_paths; intros Hrun; injection Hrun as <- <-; cbn [history gossip];
    rewrite <- ?app_assoc; eexists; (split; [reflexivity|]);
    (split; [reflexivity|]); (split; [repeat constructor|]);
    intros info e' err' Hin; cbn [app] in Hin; in_cases; try discriminate;
    inversion Hin; subst; (split; [reflexivity|]).
  all: first [ left; reflexivity | right; do 2 eexists; f_equal; f_equal; congruence ].
Qed.

(** X17: The builder is asked for a payload exactly when it reports itself
    enabled; when it does not, the race returns the engine's answer and no
    builder envelope or profit. *)
Theorem race_builder_called_iff_enabled (w w' : World)
    (out : Outcome (option ExecutionPayloadEnvelope *
                    option ExecutionPayloadEnvelope * option Z * error))
    (evs : list Event) :
  getPayloadWithBuilderPayload eng payloadInfo l2head builder w = (out, w') ->
  history w' = history w ++ evs ->
  ((exists head answer, In (CallBuilderGetPayload head answer) evs) <->
   builder_Enabled builder (history w) = true) /\
  (builder_Enabled builder (history w) = false ->
   exists e err,
     evs = [CallBuilderEnabled false; CallGetPayload payloadInfo (e, err)] /\
     out = Returned (e, None, None, err)).
Proof.
  race_paths Hrun Hevs.
  all: split; [split|].
  all: try (intros (head & answer & Hin); in_cases; discriminate).
  all: try (intros _; do 2 eexists; simpl; auto 10; fail).
  all: try discriminate.
  all: try (intros Hx; apply negb_false_iff in Heqb; congruence).
  all: try (intros Hx; apply negb_true_iff in Heqb; congruence).
  all: intros _; do 2 eexists; split; [|reflexivity];
       apply negb_true_iff in Heqb; rewrite Heqb in *;
       repeat f_equal; match goal with Hp : eng_GetPayload _ _ _ = _ |- _ =>
                         cbn [history] in Hp; rewrite Hp end; reflexivity.
Qed.

(** X18: When the builder fails, or is late, the race returns the engine's answer
    without a builder envelope; it returns also when the engine's envelope is
    nil. *)
Theorem race_without_builder_result (w : World) :
  let h1 := history w ++ [CallBuilderEnabled true] in
  let answer := builder_GetPayload builder h1 l2head in
  let h2 := h1 ++ [CallBuilderGetPayload l2head answer] in
  let engine := eng_GetPayload eng h2 payloadInfo in
  let h3 := h2 ++ [CallGetPayload payloadInfo engine] in
  builder_Enabled builder (history w) = true ->
  snd answer <> None \/ builder_late builder h3 = true ->
  getPayloadWithBuilderPayload eng payloadInfo l2head builder w =
    (Returned (fst engine, None, None, snd engine),
     {| gossip := gossip w; history := h3 |}).
Proof.
  intros h1 answer h2 engine h3. subst h1 answer h2 engine h3.
  intros Hen Hcase.
  unfold getPayloadWithBuilderPayload. unfold_calls. cbn [history gossip].
  rewrite Hen. cbn [negb history gossip].
  destruct (builder_GetPayload builder (history w ++ [CallBuilderEnabled true])
              l2head) as [[b p] berr].
  cbn [history gossip snd] in Hcase |- *.
  match goal with
  | |- context [eng_GetPayload eng ?h payloadInfo] =>
      destruct (eng_GetPayload eng h payloadInfo) as [e err]
  end.
  cbn [history gossip fst snd] in Hcase |- *.
  destruct berr as [be|]; [reflexivity|].
  destruct Hcase as [Hx|Hl]; [congruence|].
  rewrite Hl. reflexivity.
Qed.

(** X19: The race panics only after the three calls (the builder reports
    itself enabled, the builder answers without error, the engine answers), in
    the case of the [select] that receives the builder's result (the builder
    is not late at that point), and only when the builder's envelope, or its
    payload, or the engine's envelope is nil. *)
Theorem race_panic_cause (w w' : World) (evs : list Event) :
  getPayloadWithBuilderPayload eng payloadInfo l2head builder w = (Panicked, w') ->
  history w' = history w ++ evs ->
  exists b profit e err,
    evs = [CallBuilderEnabled true;
           CallBuilderGetPayload l2head (b, profit, None);
           CallGetPayload payloadInfo (e, err)] /\
    builder_late builder (history w') = false /\
    (b = None \/
     (exists benv, b = Some benv /\ env_ExecutionPayload benv = None) \/
     e = None).
Proof.
  unfold getPayloadWithBuilderPayload. unfold_calls.
  intros Hrun Hevs. revert Hrun.
  split_paths; intros Hrun; try discriminate;
    injection Hrun as <-; cbn [history gossip] in Hevs |- *;
    rewrite <- ?app_assoc in Hevs; apply app_inv_head in Hevs; subst;
    cbn [app history gossip] in *.
  all: repeat match goal with
         | Hx : _ = (_, _) |- _ => rewrite Hx in *
         end.
  all: repeat match goal with
         | Hsel : Returned (Some _) = Returned (Some _) |- _ =>
             injection Hsel as <- <-
         | Hsel : Returned _ = Returned _ |- _ => inversion Hsel; subst; clear Hsel
         end.
  all: match goal with
       | Hen : negb (builder_Enabled builder _) = false |- _ =>
           apply negb_false_iff in Hen; rewrite Hen in *
       end.
  all: do 4 eexists; split; [reflexivity|];
       split; [assumption|].
  all: first [ left; reflexivity
             | right; left; eexists; split; [reflexivity|assumption]
             | right; right; reflexivity ].
Qed.

End RaceMore.

(** * Further properties of [confirmPayload] *)

Lemma insertion_call_not_retrieval (ev : Event) :
  call_rank ev < 5 -> ~ retrieval_call ev.
Proof. destruct ev; simpl; intros Hr Hx; try contradiction; lia. Qed.

Lemma retrieval_call_rank (ev : Event) : retrieval_call ev -> call_rank ev = 5.
Proof. destruct ev; simpl; intros Hx; try contradiction; reflexivity. Qed.

Section ConfirmMore.
Context `{Imported}.

Variables (eng : ExecEngine) (fc : ForkchoiceState) (updateSafe : bool)
          (conductor : SequencerConductor).

(** What a run of [insertPayload] adds to the history: calls of the insertion
    protocol only. *)
Lemma insertPayload_history
    (envelope : option ExecutionPayloadEnvelope) (w w' : World)
    (out : Outcome (BlockInsertionErrType * error)) :
  insertPayload eng fc updateSafe conductor envelope w = (out, w') ->
  exists evs, history w' = history w ++ evs /\
              Forall (fun ev => call_rank ev < 5) evs.
Proof.
  unfold insertPayload. unfold_calls.
  split_paths; intros Hrun; injection Hrun as <- <-; cbn [history gossip];
    rewrite <- ?app_assoc.
  all: first [ exists []; split; [now rewrite app_nil_r|constructor]
             | eexists; split; [reflexivity|];
               repeat constructor ].
Qed.

(** What an insertion that returns OK has established. *)
Lemma insertPayload_OK_inv
    (envelope : option ExecutionPayloadEnvelope) (w w' : World) (err : error) :
  insertPayload eng fc updateSafe conductor envelope w =
    (Returned (BlockInsertOK, err), w') ->
  err = None /\ gossip w' = None /\
  exists env p, envelope = Some env /\ env_ExecutionPayload env = Some p /\
                accepts p.
Proof.
  unfold insertPayload. unfold_calls.
  split_paths; intros Hrun; try discriminate; inversion Hrun; subst; clear Hrun.
  all: split; [reflexivity|]; split; [reflexivity|].
  all: do 2 eexists; split; [reflexivity|]; split; [eassumption|];
       unfold accepts; assumption.
Qed.

Variables (payloadInfo : PayloadInfo) (builderClient : BuilderClient)
          (l2head : L2BlockRef).

(** X20: An envelope found in the gossip cache is used as it is: no payload is
    retrieved from the engine, the builder is not consulted, and the
    envelope returned is the cached one. *)
Theorem confirmPayload_reuses_cached
    (c : ExecutionPayloadEnvelope) (w w' : World)
    (out : Outcome (option ExecutionPayloadEnvelope * BlockInsertionErrType * error))
    (evs : list Event) :
  gossip w = Some c ->
  confirmPayload eng fc payloadInfo updateSafe conductor builderClient l2head w =
    (out, w') ->
  history w' = history w ++ evs ->
  Forall (fun ev => ~ retrieval_call ev) evs /\
  (forall e t err, out = Returned (e, t, err) -> e = Some c).
Proof.
  intros Hcache. unfold confirmPayload. unfold_calls. rewrite Hcache.
  destruct (env_ExecutionPayload c) as [p|].
  - destruct (insertPayload eng fc updateSafe conductor (Some c)
                {| gossip := Some c; history := history w ++ [CallGet (Some c)] |})
      as [[[t e]|] w2] eqn:Hins;
      intros Hrun Hevs; injection Hrun as <- <-;
      apply insertPayload_history in Hins as (evi & Hhist & Hranks);
      cbn [history] in Hhist; rewrite Hhist, <- app_assoc in Hevs;
      apply app_inv_head in Hevs; subst evs.
    + split.
      * constructor; [simpl; tauto|].
        eapply Forall_impl; [|exact Hranks].
        intros ev. apply insertion_call_not_retrieval.
      * intros e' t' err' Hout. now injection Hout as <- _ _.
    + split; [|discriminate].
      constructor; [simpl; tauto|].
      eapply Forall_impl; [|exact Hranks].
      intros ev. apply insertion_call_not_retrieval.
  - intros Hrun Hevs. injection Hrun as <- <-. cbn [history] in Hevs.
    apply app_inv_head in Hevs. subst evs.
    split; [|discriminate]. constructor; [simpl; tauto|constructor].
Qed.

(** X21: When the engine's retrieval of the payload has failed in a run of
    [confirmPayload], the gossip cache was empty and the race was run; if the
    race has returned, [confirmPayload] returns no envelope and a TemporaryErr
    that wraps the engine's error, has made no call of the insertion protocol,
    also when the builder has delivered an envelope, and has left the cache
    alone; [confirmPayload] panics only if the race has panicked. *)
Theorem confirmPayload_retrieval_error
    (w w' : World)
    (out : Outcome (option ExecutionPayloadEnvelope * BlockInsertionErrType * error))
    (evs : list Event) (info : PayloadInfo)
    (e : option ExecutionPayloadEnvelope) (err : error_val) :
  confirmPayload eng fc payloadInfo updateSafe conductor builderClient l2head w =
    (out, w') ->
  history w' = history w ++ evs ->
  In (CallGetPayload info (e, Some err)) evs ->
  gossip w = None /\
  match fst (getPayloadWithBuilderPayload eng payloadInfo l2head builderClient
               (log_call (CallGet None) w)) with
  | Panicked => out = Panicked
  | Returned _ =>
      out = Returned (None, BlockInsertTemporaryErr,
                      Some (fmt_Errorf "failed to get execution payload: %w"
                              (Some err))) /\
      gossip w' = gossip w /\
      Forall (fun ev => call_rank ev = 5) evs
  end.
Proof.
  unfold confirmPayload. unfold_calls.
  destruct (gossip w) as [c|] eqn:Hcache.
  - (* cached envelope: no retrieval call at all *)
    intros Hrun Hevs Hin. exfalso.
    assert (Hcached :
      Forall (fun ev => ~ retrieval_call ev) evs).
    { revert Hrun Hevs. clear Hin.
      destruct (env_ExecutionPayload c) as [p|].
      - destruct (insertPayload eng fc updateSafe conductor (Some c)
                    {| gossip := Some c; history := history w ++ [CallGet (Some c)] |})
          as [[[t e0]|] w2] eqn:Hins;
          intros Hrun Hevs; injection Hrun as <- <-;
          apply insertPayload_history in Hins as (evi & Hhist & Hranks);
          cbn [history] in Hhist; rewrite Hhist, <- app_assoc in Hevs;
          apply app_inv_head in Hevs; subst evs;
          (constructor; [simpl; tauto|]);
          (eapply Forall_impl; [|exact Hranks]);
          intros ev; apply insertion_call_not_retrieval.
      - intros Hrun Hevs. injection Hrun as <- <-. cbn [history] in Hevs.
        apply app_inv_head in Hevs. subst evs.
        constructor; [simpl; tauto|constructor]. }
    rewrite Forall_forall in Hcached. apply (Hcached _ Hin). exact I.
  - destruct (getPayloadWithBuilderPayload eng payloadInfo l2head builderClient
                {| gossip := None; history := history w ++ [CallGet None] |})
      as [race w1] eqn:Hrace.
    pose proof (race_history _ _ _ _ _ Hrace) as (evr & Hhr & Hgr & Hretr & Hget).
    cbn [history gossip] in Hhr, Hgr. cbn [fst].
    destruct race as [[[[e1 b1] p1] err1]|]; cbn beta iota.
    2: { intros Hrun _ _. injection Hrun as <- _. split; reflexivity. }
    destruct err1 as [err1|].
    + intros Hrun Hevs Hin. injection Hrun as <- <-. split; [reflexivity|].
      rewrite Hhr, <- app_assoc in Hevs. apply app_inv_head in Hevs. subst evs.
      destruct Hin as [Hin|Hin]; [discriminate|].
      destruct (Hget _ _ _ Hin) as [_ [Hp|(b & p & Hout)]]; [discriminate|].
      injection Hout as _ _ _ ->.
      split; [reflexivity|]. split; [congruence|].
      constructor; [reflexivity|].
      eapply Forall_impl; [|exact Hretr]. intros ev. apply retrieval_call_rank.
    + (* the retrieval succeeded: a failed engine call is not in the history *)
      intros Hrun Hevs Hin. exfalso.
      assert (Hevs' : exists evi, evs = CallGet None :: evr ++ evi /\
                                   Forall (fun ev => call_rank ev < 5) evi).
      { revert Hrun Hevs. clear Hin.
        destruct b1 as [benv|].
        - destruct (insertPayload eng fc updateSafe conductor (Some benv) w1)
            as [[[t1 [ie1|]]|] w2] eqn:Hins1;
            apply insertPayload_history in Hins1 as (ev1 & Hh1 & Hr1).
          + destruct (insertPayload eng fc updateSafe conductor e1 w2)
              as [[[t2 ie2]|] w3] eqn:Hins2;
              apply insertPayload_history in Hins2 as (ev2 & Hh2 & Hr2);
              intros Hrun Hevs; injection Hrun as <- <-;
              rewrite Hh2, Hh1, Hhr, <- !app_assoc in Hevs;
              apply app_inv_head in Hevs; subst evs.
            all: exists (ev1 ++ ev2); (split; [reflexivity|]).
            all: apply Forall_app; split; assumption.
          + intros Hrun Hevs; injection Hrun as <- <-.
            rewrite Hh1, Hhr, <- !app_assoc in Hevs.
            apply app_inv_head in Hevs. subst evs.
            exists ev1. split; [reflexivity|assumption].
          + intros Hrun Hevs; injection Hrun as <- <-.
            rewrite Hh1, Hhr, <- !app_assoc in Hevs.
            apply app_inv_head in Hevs. subst evs.
            exists ev1. split; [reflexivity|assumption].
        - destruct (insertPayload eng fc updateSafe conductor e1 w1)
            as [[[t2 ie2]|] w3] eqn:Hins2;
            apply insertPayload_history in Hins2 as (ev2 & Hh2 & Hr2);
            intros Hrun Hevs; injection Hrun as <- <-;
            rewrite Hh2, Hhr, <- !app_assoc in Hevs;
            apply app_inv_head in Hevs; subst evs;
            exists ev2; (split; [reflexivity|assumption]). }
      destruct Hevs' as (evi & -> & Hranks).
      destruct Hin as [Hin|Hin]; [discriminate|].
      apply in_app_or in Hin as [Hin|Hin].
      * destruct (Hget _ _ _ Hin) as [_ [Hp|(b & p & Hout)]]; discriminate.
      * rewrite Forall_forall in Hranks. apply Hranks in Hin. simpl in Hin. lia.
Qed.

(** X22: When [confirmPayload] returns OK, the error is nil, the gossip cache is
    empty, and the envelope returned is there and holds a payload that the
    validator accepts. *)
Theorem confirmPayload_OK_effects
    (w w' : World) (e : option ExecutionPayloadEnvelope) (err : error) :
  confirmPayload eng fc payloadInfo updateSafe conductor builderClient l2head w =
    (Returned (e, BlockInsertOK, err), w') ->
  err = None /\ gossip w' = None /\
  exists env p, e = Some env /\ env_ExecutionPayload env = Some p /\ accepts p.
Proof.
  unfold confirmPayload. unfold_calls.
  split_paths; intros Hrun; try discriminate; inversion Hrun; subst; clear Hrun.
  all: match goal with
       | Hins : insertPayload _ _ _ _ _ _ = (Returned (BlockInsertOK, _), _) |- _ =>
           apply insertPayload_OK_inv in Hins
             as (Herr & Hg & env & p & Henv & Hp & Hacc)
       end.
  all: try discriminate.
  all: split; [assumption|]; split; [assumption|]; eauto.
Qed.

End ConfirmMore.

(** * Properties of the builder API client *)

Section BuilderAPI.

(** X23: When the conversion returns, it returns an envelope exactly when it
    returns no error; the envelope has no parent beacon block root, and its
    payload has the request's transactions, in their order, and the request's
    block hash, block number and parent hash. *)
Theorem versioned_envelope_shape
    (resp : option VersionedSubmitBlockRequest)
    (envelope : option ExecutionPayloadEnvelope) (err : error) :
  versionedExecutionPayloadToExecutionPayloadEnvelope resp =
    Returned (envelope, err) ->
  (envelope = None <-> err <> None) /\
  (forall env, envelope = Some env ->
     env_ParentBeaconBlockRoot env = None /\
     exists r deneb payload p,
       resp = Some r /\ vr_Version r = DataVersionDeneb /\
       vr_Deneb r = Some deneb /\ dr_ExecutionPayload deneb = Some payload /\
       env_ExecutionPayload env = Some p /\
       ep_Transactions p = dp_Transactions payload /\
       ep_BlockHash p = dp_BlockHash payload /\
       ep_BlockNumber p = dp_BlockNumber payload /\
       ep_ParentHash p = dp_ParentHash payload).
Proof.
  unfold versionedExecutionPayloadToExecutionPayloadEnvelope.
  split_paths; intros Hrun; try discriminate; inversion Hrun; subst; clear Hrun.
  - split; [split; [discriminate|intros Hx; now contradiction Hx]|].
    intros env Henv. injection Henv as <-. split; [reflexivity|].
    do 4 eexists. repeat split; try eassumption; try reflexivity.
    cbn [ep_Transactions]. apply map_id.
  - split; [split; [discriminate|reflexivity]|]. discriminate.
Qed.

Variables (s : BuilderAPIClient) (ref : L2BlockRef).

(** X24: The contract of [GetPayload] that the race relies on: when it returns an
    error, envelope and profit are nil; when it returns no error, the envelope
    is there, it holds a payload, and it has no parent beacon block root. *)
Theorem BuilderAPIClient_GetPayload_contract
    (envelope : option ExecutionPayloadEnvelope) (profit : option Z) (err : error) :
  BuilderAPIClient_GetPayload s ref = Returned (envelope, profit, err) ->
  (err <> None -> envelope = None /\ profit = None) /\
  (err = None ->
   exists env p, envelope = Some env /\ env_ExecutionPayload env = Some p /\
                 env_ParentBeaconBlockRoot env = None).
Proof.
  unfold BuilderAPIClient_GetPayload. cbv zeta.
  destruct (api_Get s PathGetPayload _ (ref_Hash ref)) as [[resp|] [e|]];
    try (intros Hrun; inversion Hrun; subst; split; [auto|discriminate]);
    try discriminate.
  destruct (resp_Body resp) as [bodyBytes [e|]];
    try (intros Hrun; inversion Hrun; subst; split; [auto|discriminate]).
  destruct (negb (Nat.eqb (resp_StatusCode resp) 200));
    try (intros Hrun; inversion Hrun; subst; split; [auto|discriminate]).
  destruct (api_Unmarshal s bodyBytes) as [responsePayload [e|]];
    try (intros Hrun; inversion Hrun; subst; split; [auto|discriminate]).
  destruct (vr_Version responsePayload);
    try (intros Hrun; inversion Hrun; subst; split; [auto|discriminate]).
  destruct (vr_Deneb responsePayload) as [deneb|]; [|discriminate].
  destruct (dr_Message deneb) as [message|]; [|discriminate].
  destruct (versionedExecutionPayloadToExecutionPayloadEnvelope (Some responsePayload))
    as [[oenv [e|]]|] eqn:Hconv; try discriminate;
    try (intros Hrun; inversion Hrun; subst; split; [auto|discriminate]).
  intros Hrun. inversion Hrun; subst. clear Hrun.
  split; [intros Hx; now contradiction Hx|]. intros _.
  unfold versionedExecutionPayloadToExecutionPayloadEnvelope in Hconv.
  revert Hconv. split_paths; intros Hconv; try discriminate.
  injection Hconv as <-. do 2 eexists. repeat split.
Qed.

(** X25: [GetPayload] returns an envelope only when the HTTP status is 200 and the
    decoded request is of version Deneb; with any other status the error is
    [errHTTPErrorResponse] as soon as the body could be read. *)
Theorem BuilderAPIClient_GetPayload_success_requires
    (envelope : option ExecutionPayloadEnvelope) (profit : option Z)
    (resp : HTTPResponse) (bodyBytes : list byte) :
  api_Get s PathGetPayload ((N.of_nat (ref_Number ref) + 1) mod 2 ^ 64)%N
    (ref_Hash ref) = (Some resp, None) ->
  resp_Body resp = (bodyBytes, None) ->
  (resp_StatusCode resp <> 200 ->
   BuilderAPIClient_GetPayload s ref =
   Returned (None, None, Some errHTTPErrorResponse)) /\
  (BuilderAPIClient_GetPayload s ref = Returned (envelope, profit, None) ->
   resp_StatusCode resp = 200 /\
   vr_Version (fst (api_Unmarshal s bodyBytes)) = DataVersionDeneb /\
   snd (api_Unmarshal s bodyBytes) = None).
Proof.
  intros Hget Hbody. unfold BuilderAPIClient_GetPayload. cbv zeta.
  rewrite Hget, Hbody. split.
  - intros Hcode. apply Nat.eqb_neq in Hcode. rewrite Hcode. reflexivity.
  - destruct (Nat.eqb (resp_StatusCode resp) 200) eqn:Hcode; cbn [negb];
      [|discriminate].
    apply Nat.eqb_eq in Hcode.
    destruct (api_Unmarshal s bodyBytes) as [responsePayload [e|]];
      [discriminate|].
    cbn [fst snd].
    destruct (vr_Version responsePayload); [|discriminate].
    intros _. auto.
Qed.

(** What the race needs of a successful answer of [GetPayload]. *)
Lemma BuilderAPIClient_GetPayload_answer
    (envelope : option ExecutionPayloadEnvelope) (profit : option Z) :
  BuilderAPIClient_GetPayload s ref = Returned (envelope, profit, None) ->
  exists env p, envelope = Some env /\ env_ExecutionPayload env = Some p.
Proof.
  unfold BuilderAPIClient_GetPayload,
    versionedExecutionPayloadToExecutionPayloadEnvelope.
  cbv zeta. split_paths; intros Hrun; try discriminate.
  all: inversion Hrun; subst; do 2 eexists; split; reflexivity.
Qed.

End BuilderAPI.

Section RaceWithAPI.

Variables (s : BuilderAPIClient) (eng : ExecEngine) (payloadInfo : PayloadInfo)
          (l2head : L2BlockRef) (builder : BuilderClient).

(** X26: With a builder whose answers are those of the API client's [GetPayload],
    the race panics only when the engine has returned a nil envelope: the
    builder's envelope and its payload are never nil. *)
Theorem race_with_api_client_panic_cause (w w' : World) (evs : list Event) :
  (forall h ref,
      BuilderAPIClient_GetPayload s ref = Returned (builder_GetPayload builder h ref)) ->
  getPayloadWithBuilderPayload eng payloadInfo l2head builder w = (Panicked, w') ->
  history w' = history w ++ evs ->
  exists err, In (CallGetPayload payloadInfo (None, err)) evs.
Proof.
  intros Hapi.
  unfold getPayloadWithBuilderPayload. unfold_calls.
  intros Hrun Hevs. revert Hrun.
  split_paths; intros Hrun; try discriminate;
    injection Hrun as <-; cbn [history gossip] in Hevs |- *;
    rewrite <- ?app_assoc in Hevs; apply app_inv_head in Hevs; subst;
    cbn [app history gossip] in *.
  all: repeat match goal with
         | Hsel : Returned (Some _) = Returned (Some _) |- _ =>
             injection Hsel as <- <-
         | Hsel : Returned _ = Returned _ |- _ => inversion Hsel; subst; clear Hsel
         end.
  all: match goal with
       | Hans : builder_GetPayload builder ?h ?r = _ |- _ =>
           pose proof (Hapi h r) as Hcontract; rewrite Hans in Hcontract;
           apply BuilderAPIClient_GetPayload_answer in Hcontract
             as (env & p & Henv & Hp)
       end.
  all: try discriminate.
  all: try (injection Henv as <-; congruence).
  all: eexists; simpl; auto 10.
Qed.

End RaceWithAPI.

(** * The further properties on concrete runs *)

Lemma deposit_tx_privileged : @privileged imports_7e deposit_tx.
Proof. exists [x01]. reflexivity. Qed.

Lemma user_tx_not_privileged :
  user_tx <> [] /\ ~ @privileged imports_7e user_tx.
Proof. split; [discriminate|]. intros [r Hr]. discriminate. Qed.

Lemma lastDeposit_leading_run_witness :
  @lastDeposit imports_7e ([deposit_tx; deposit_tx] ++ [user_tx]) = (1, None).
Proof.
  refine (@lastDeposit_leading_run imports_7e [deposit_tx; deposit_tx] [user_tx] _ _).
  - repeat constructor; apply deposit_tx_privileged.
  - right. exists user_tx, []. split; [reflexivity|]. apply user_tx_not_privileged.
Defined.

Lemma lastDeposit_error_iff_witness :
  (exists e, snd (@lastDeposit imports_7e [deposit_tx; []; user_tx]) = Some e) /\
  fst (@lastDeposit imports_7e [deposit_tx; []; user_tx]) = 0.
Proof.
  assert (Herr : exists e,
             snd (@lastDeposit imports_7e [deposit_tx; []; user_tx]) = Some e).
  { apply (proj1 (@lastDeposit_error_iff imports_7e [deposit_tx; []; user_tx])).
    exists [deposit_tx], [user_tx]. split; [reflexivity|].
    repeat constructor. apply deposit_tx_privileged. }
  split; [exact Herr|].
  destruct Herr as [e He].
  exact (proj2 (@lastDeposit_error_iff imports_7e [deposit_tx; []; user_tx]) e He).
Defined.

(** The example [D, N, D]. *)
Lemma sanityCheckPayload_deposit_after_other_witness :
  @sanityCheckPayload imports_7e
    (Some (payload_of [deposit_tx; user_tx; deposit_tx])) =
  Returned (Some (fmt_Errorf
                    "deposit tx (%d) after other tx in l2 block with prev deposit at idx %d"
                    None)).
Proof.
  refine (@sanityCheckPayload_deposit_after_other imports_7e
            (payload_of [deposit_tx; user_tx; deposit_tx])
            deposit_tx [] user_tx [] deposit_tx [] eq_refl _ _ _).
  - repeat constructor; apply deposit_tx_privileged.
  - repeat constructor; apply user_tx_not_privileged.
  - apply deposit_tx_privileged.
Defined.

Lemma sanityCheckPayload_reads_type_bytes_witness :
  @sanityCheckPayload imports_7e (Some (payload_of [[x7e]; [x02; xff]])) =
  @sanityCheckPayload imports_7e (Some engine_block).
Proof.
  exact (@sanityCheckPayload_reads_type_bytes imports_7e
           (payload_of [[x7e]; [x02; xff]]) engine_block eq_refl).
Defined.

Lemma accepts_extend_witness :
  @accepts imports_7e
    (payload_of (deposit_tx :: [deposit_tx; user_tx])) /\
  @accepts imports_7e
    (payload_of ([deposit_tx; user_tx] ++ [user_tx])).
Proof.
  assert (Hacc : @accepts imports_7e (payload_of [deposit_tx; user_tx]))
    by reflexivity.
  split.
  - exact (proj1 (@accepts_extend imports_7e (payload_of [deposit_tx; user_tx])
                    deposit_tx Hacc) deposit_tx_privileged).
  - exact (proj2 (@accepts_extend imports_7e (payload_of [deposit_tx; user_tx])
                    user_tx Hacc)
             (proj1 user_tx_not_privileged) (proj2 user_tx_not_privileged)).
Defined.

Lemma startPayload_failure_zero_id_witness :
  fst (run_start (forkchoice_error_engine unknown_code)) =
    Returned (PayloadID_zero, BlockInsertPrestateErr,
              Some (fmt_Errorf "unexpected error code in forkchoice-updated response: %w"
                      (Some unknown_code))) /\
  PayloadID_zero = PayloadID_zero.
Proof.
  assert (Hrun :
    fst (run_start (forkchoice_error_engine unknown_code)) =
    Returned (PayloadID_zero, BlockInsertPrestateErr,
              Some (fmt_Errorf "unexpected error code in forkchoice-updated response: %w"
                      (Some unknown_code)))) by reflexivity.
  split; [exact Hrun|].
  refine (@startPayload_failure_zero_id imports_7e
            (forkchoice_error_engine unknown_code) fc0 None fresh_world
            _ _ _ Hrun _).
  discriminate.
Defined.

(** A payload whose first transaction is not a deposit: PayloadErr, no call. *)
Lemma insertPayload_rejected_payload_witness :
  fst (@insertPayload imports_7e valid_engine fc0 false (fixed_conductor None)
         (Some {| env_ParentBeaconBlockRoot := None;
                  env_ExecutionPayload := Some (payload_of [user_tx]) |})
         fresh_world) =
    Returned (BlockInsertPayloadErr,
              Some (fmt_Errorf "first transaction was not deposit tx. Got %v" None)) /\
  snd (@insertPayload imports_7e valid_engine fc0 false (fixed_conductor None)
         (Some {| env_ParentBeaconBlockRoot := None;
                  env_ExecutionPayload := Some (payload_of [user_tx]) |})
         fresh_world) = fresh_world.
Proof.
  exact (proj1 (@insertPayload_rejected_payload imports_7e valid_engine fc0
                  false (fixed_conductor None)
                  {| env_ParentBeaconBlockRoot := None;
                     env_ExecutionPayload := Some (payload_of [user_tx]) |}
                  fresh_world _ _ _ (surjective_pairing _) eq_refl)
           _ eq_refl).
Defined.

(** The run in which everything succeeds. *)
Lemma insertPayload_call_order_witness :
  StronglySorted lt
    (map call_rank (history (snd (run_insert valid_engine (fixed_conductor None))))) /\
  Forall (fun ev => call_rank ev < 5)
    (history (snd (run_insert valid_engine (fixed_conductor None)))).
Proof.
  exact (@insertPayload_call_order imports_7e valid_engine fc0 false
           (fixed_conductor None) (Some engine_envelope) fresh_world _ _ _
           (surjective_pairing (run_insert valid_engine (fixed_conductor None)))
           eq_refl).
Defined.

Lemma insertPayload_call_preconditions_witness :
  exists p root st before after,
    history (snd (run_insert valid_engine (fixed_conductor None))) =
      before ++
      CallForkchoiceUpdate (advanced_forkchoice fc0 false engine_block) None
        (Some (fcu_result ExecutionValid), None) :: after /\
    In (CallNewPayload (Some p) root (Some st, None)) before /\
    ps_Status st = ExecutionValid /\ @None PayloadAttributes = None /\
    advanced_forkchoice fc0 false engine_block = advanced_forkchoice fc0 false p.
Proof.
  refine (proj2 (proj2 (proj2
            (@insertPayload_call_preconditions imports_7e valid_engine fc0 false
               (fixed_conductor None) (Some engine_envelope) fresh_world _ _ _
               (surjective_pairing (run_insert valid_engine (fixed_conductor None)))
               eq_refl)))
            (advanced_forkchoice fc0 false engine_block) None
            (Some (fcu_result ExecutionValid), None) _).
  vm_compute. auto 10.
Defined.

Lemma insertPayload_OK_effects_witness :
  run_insert valid_engine (fixed_conductor None) =
    (Returned (BlockInsertOK, None),
     snd (run_insert valid_engine (fixed_conductor None))) /\
  gossip (snd (run_insert valid_engine (fixed_conductor None))) = None.
Proof.
  assert (Hrun :
    run_insert valid_engine (fixed_conductor None) =
    (Returned (BlockInsertOK, None),
     snd (run_insert valid_engine (fixed_conductor None))))
    by (vm_compute; reflexivity).
  split; [exact Hrun|].
  exact (proj1 (proj2 (@insertPayload_OK_effects imports_7e valid_engine fc0 false
                         (fixed_conductor None) (Some engine_envelope) fresh_world
                         _ _ _ Hrun eq_refl))).
Defined.

(** The engine does not answer the new-payload call: the cache keeps the
    envelope.  The engine finds the block invalid: the cache is emptied. *)
Lemma insertPayload_gossip_policy_witness :
  gossip (snd (run_insert
                 (fixed_engine (None, None) (None, Some (foreignError 3)) (None, None))
                 (fixed_conductor None))) = Some engine_envelope /\
  gossip (snd (run_insert rejecting_engine (fixed_conductor None))) = None.
Proof.
  split.
  - refine (proj1 (proj1 (@insertPayload_gossip_policy imports_7e
              (fixed_engine (None, None) (None, Some (foreignError 3)) (None, None))
              fc0 false (fixed_conductor None) (Some engine_envelope) fresh_world
              _ BlockInsertTemporaryErr
              (Some (fmt_Errorf "failed to insert execution payload: %w"
                       (Some (foreignError 3))))
              _ engine_envelope _ eq_refl _) eq_refl)).
    + vm_compute. reflexivity.
    + vm_compute. auto 10.
  - refine (proj1 (proj2 (@insertPayload_gossip_policy imports_7e rejecting_engine
              fc0 false (fixed_conductor None) (Some engine_envelope) fresh_world
              _ BlockInsertPayloadErr (Some (errorString "new payload failed"))
              _ engine_envelope _ eq_refl _) _)).
    + vm_compute. reflexivity.
    + vm_compute. auto 10.
    + discriminate.
Defined.

Lemma insertPayload_engine_error_temporary_witness :
  (exists format,
      fst (run_insert (forkchoice_error_engine (foreignError 4)) (fixed_conductor None)) =
      Returned (BlockInsertTemporaryErr,
                Some (fmt_Errorf format (Some (foreignError 4))))) /\
  gossip (snd (run_insert (forkchoice_error_engine (foreignError 4))
                 (fixed_conductor None))) = Some engine_envelope.
Proof.
  refine (@insertPayload_engine_error_temporary imports_7e
            (forkchoice_error_engine (foreignError 4)) fc0 false
            (fixed_conductor None) (Some engine_envelope) fresh_world _ _ _
            (foreignError 4)
            (surjective_pairing
               (run_insert (forkchoice_error_engine (foreignError 4))
                  (fixed_conductor None)))
            eq_refl _).
  right. exists (advanced_forkchoice fc0 false engine_block), None, None.
  split; [vm_compute; auto 10|reflexivity].
Defined.

Lemma insertPayload_forkchoice_status_not_valid_witness :
  fst (run_insert
         (fixed_engine (Some (fcu_result (ExecutionOther "SYNCING")), None)
                       (Some (status_of ExecutionValid), None) (None, None))
         (fixed_conductor None)) =
    Returned (BlockInsertPayloadErr, Some (errorString "forkchoice update failed")) /\
  gossip (snd (run_insert
                 (fixed_engine (Some (fcu_result (ExecutionOther "SYNCING")), None)
                               (Some (status_of ExecutionValid), None) (None, None))
                 (fixed_conductor None))) = None.
Proof.
  refine (@insertPayload_forkchoice_status_not_valid imports_7e
            (fixed_engine (Some (fcu_result (ExecutionOther "SYNCING")), None)
                          (Some (status_of ExecutionValid), None) (None, None))
            fc0 false (fixed_conductor None) (Some engine_envelope) fresh_world
            _ _ _ (advanced_forkchoice fc0 false engine_block) None
            (fcu_result (ExecutionOther "SYNCING"))
            (surjective_pairing _) eq_refl _ _).
  - vm_compute. auto 10.
  - discriminate.
Defined.

(** A disabled builder is not asked. *)
Lemma race_builder_called_iff_enabled_witness :
  exists e err,
    history (snd (run_race valid_engine
                    (fixed_builder false (None, None, None) false) fresh_world)) =
      [CallBuilderEnabled false; CallGetPayload info0 (e, err)] /\
    fst (run_race valid_engine
           (fixed_builder false (None, None, None) false) fresh_world) =
      Returned (e, None, None, err).
Proof.
  exact (proj2 (@race_builder_called_iff_enabled valid_engine info0 head0
                  (fixed_builder false (None, None, None) false) fresh_world
                  _ _ _ (surjective_pairing _) eq_refl) eq_refl).
Defined.

(** A late builder and an engine that has lost the payload: the race returns
    the engine's error. *)
Lemma race_without_builder_result_witness :
  fst (run_race forgetful_engine
         (fixed_builder true (Some builder_envelope, Some 7%Z, None) true)
         fresh_world) =
  Returned (None, None, None, Some (foreignError 2)).
Proof.
  unfold run_race.
  rewrite (@race_without_builder_result forgetful_engine info0 head0
             (fixed_builder true (Some builder_envelope, Some 7%Z, None) true)
             fresh_world eq_refl (or_intror eq_refl)).
  reflexivity.
Defined.

Lemma race_panic_cause_witness :
  exists b profit e err,
    history (snd (run_race forgetful_engine prompt_builder fresh_world)) =
      [CallBuilderEnabled true;
       CallBuilderGetPayload head0 (b, profit, None);
       CallGetPayload info0 (e, err)] /\
    builder_late prompt_builder
      (history (snd (run_race forgetful_engine prompt_builder fresh_world))) =
      false /\
    (b = None \/
     (exists benv, b = Some benv /\ env_ExecutionPayload benv = None) \/
     e = None).
Proof.
  refine (@race_panic_cause forgetful_engine info0 head0 prompt_builder
            fresh_world (snd (run_race forgetful_engine prompt_builder fresh_world))
            _ _ eq_refl).
  vm_compute. reflexivity.
Defined.

(** A world whose cache holds the engine's envelope. *)
Lemma confirmPayload_reuses_cached_witness :
  Forall (fun ev => ~ retrieval_call ev)
    (history (snd (@confirmPayload imports_7e valid_engine fc0 info0 false
                     (fixed_conductor None) prompt_builder head0
                     {| gossip := Some engine_envelope; history := [] |}))) /\
  fst (@confirmPayload imports_7e valid_engine fc0 info0 false
         (fixed_conductor None) prompt_builder head0
         {| gossip := Some engine_envelope; history := [] |}) =
    Returned (Some engine_envelope, BlockInsertOK, None).
Proof.
  split; [|vm_compute; reflexivity].
  exact (proj1 (@confirmPayload_reuses_cached imports_7e valid_engine fc0 false
                  (fixed_conductor None) info0 prompt_builder head0
                  engine_envelope {| gossip := Some engine_envelope; history := [] |}
                  _ _ _ eq_refl (surjective_pairing _) eq_refl)).
Defined.

(** The engine has lost the payload and the builder is disabled: the race
    returns, and so does [confirmPayload]. *)
Lemma confirmPayload_retrieval_error_witness :
  gossip fresh_world = None /\
  fst (run_confirm forgetful_engine (fixed_builder false (None, None, None) false)) =
    Returned (None, BlockInsertTemporaryErr,
              Some (fmt_Errorf "failed to get execution payload: %w"
                      (Some (foreignError 2)))) /\
  gossip (snd (run_confirm forgetful_engine
                 (fixed_builder false (None, None, None) false))) =
    gossip fresh_world /\
  Forall (fun ev => call_rank ev = 5)
    (history (snd (run_confirm forgetful_engine
                     (fixed_builder false (None, None, None) false)))).
Proof.
  refine (@confirmPayload_retrieval_error imports_7e forgetful_engine fc0 false
            (fixed_conductor None) info0
            (fixed_builder false (None, None, None) false) head0 fresh_world
            _ _ _ info0 None (foreignError 2) (surjective_pairing _) eq_refl _).
  vm_compute. auto 10.
Defined.

Lemma confirmPayload_OK_effects_witness :
  run_confirm picky_engine prompt_builder =
    (Returned (Some engine_envelope, BlockInsertOK, None),
     snd (run_confirm picky_engine prompt_builder)) /\
  gossip (snd (run_confirm picky_engine prompt_builder)) = None.
Proof.
  assert (Hrun :
    run_confirm picky_engine prompt_builder =
    (Returned (Some engine_envelope, BlockInsertOK, None),
     snd (run_confirm picky_engine prompt_builder)))
    by (vm_compute; reflexivity).
  split; [exact Hrun|].
  exact (proj1 (proj2 (@confirmPayload_OK_effects imports_7e picky_engine fc0 false
                         (fixed_conductor None) info0 prompt_builder head0
                         fresh_world _ _ _ Hrun))).
Defined.

(** The Deneb request converts to the builder's envelope of the examples. *)
Lemma versioned_envelope_shape_witness :
  versionedExecutionPayloadToExecutionPayloadEnvelope (Some deneb_request) =
    Returned (Some builder_envelope, None) /\
  env_ParentBeaconBlockRoot builder_envelope = None.
Proof.
  assert (Hrun :
    versionedExecutionPayloadToExecutionPayloadEnvelope (Some deneb_request) =
    Returned (Some builder_envelope, None)) by reflexivity.
  split; [exact Hrun|].
  exact (proj1 (proj2 (@versioned_envelope_shape (Some deneb_request)
                         (Some builder_envelope) None Hrun)
                  builder_envelope eq_refl)).
Defined.

Lemma BuilderAPIClient_GetPayload_contract_witness :
  BuilderAPIClient_GetPayload (answering_api 200) head0 =
    Returned (Some builder_envelope, Some 7%Z, None) /\
  exists env p,
    Some builder_envelope = Some env /\ env_ExecutionPayload env = Some p /\
    env_ParentBeaconBlockRoot env = None.
Proof.
  assert (Hrun :
    BuilderAPIClient_GetPayload (answering_api 200) head0 =
    Returned (Some builder_envelope, Some 7%Z, None)) by reflexivity.
  split; [exact Hrun|].
  exact (proj2 (@BuilderAPIClient_GetPayload_contract (answering_api 200) head0
                  _ _ _ Hrun) eq_refl).
Defined.

(** The same body under the status 503. *)
Lemma BuilderAPIClient_GetPayload_success_requires_witness :
  BuilderAPIClient_GetPayload (answering_api 503) head0 =
  Returned (None, None, Some errHTTPErrorResponse).
Proof.
  refine (proj1 (@BuilderAPIClient_GetPayload_success_requires (answering_api 503)
                   head0 None None
                   {| resp_StatusCode := 503; resp_Body := ([x7b; x7d], None) |}
                   [x7b; x7d] eq_refl eq_refl) _).
  simpl. discriminate.
Defined.

(** The API client as the builder of the race, and an engine that has lost
    the payload. *)
Lemma race_with_api_client_panic_cause_witness :
  fst (run_race forgetful_engine prompt_builder fresh_world) = Panicked /\
  exists err,
    In (CallGetPayload info0 (None, err))
       (history (snd (run_race forgetful_engine prompt_builder fresh_world))).
Proof.
  split; [reflexivity|].
  refine (@race_with_api_client_panic_cause (answering_api 200) forgetful_engine
            info0 head0 prompt_builder fresh_world
            (snd (run_race forgetful_engine prompt_builder fresh_world))
            _ _ _ eq_refl).
  - intros h ref. reflexivity.
  - vm_compute. reflexivity.
Defined.
